(** * AdiTradingBot: the trade-execution core, embedded and verified

    A shallow embedding of [src/trader.py] (class [Trader]) and of the
    procedural twin [src/main.py]: the Signal Engine ([make_decision]), the
    Order Executor ([_place_order], [_monitor_order]), the Trade Ledger
    ([_update_trade_log]) and the Scheduler Loop ([run]).

    Modelling conventions.
    - Python [float] prices, cash and share quantities are exact rationals
      ([Q]); the one non-number the code can produce, the [nan] that
      [np.mean] returns on an empty list, is kept as a separate value.
    - A Python call either returns or raises: effectful code lives in the
      monad [M], a state monad over [World] with an exception result.
    - The brokerage, the market-data service, the wall clock and the file
      system are the [World]; every order, poll, cancel and sleep the
      program makes is recorded in the world's [trace].
    - Of the brokerage calls, [submit_order] and [get_position] may raise;
      the reads of the account, of the positions and of the bars, the status
      polls and the cancel requests are modelled as calls that return.
    - [logging] calls are left out. *)

From Stdlib Require Import ZArith QArith Qround List String Bool Lia.
From Stdlib Require Import Permutation Sorted.
From Equations Require Import Equations.
Import ListNotations.

Open Scope string_scope.
Open Scope list_scope.
Open Scope Z_scope.

(** ** Python values *)

(** [alpaca.trading.enums.OrderSide]. *)
Inductive OrderSide : Type := BUY | SELL.

(** The exceptions that reach the code under study: the [ValueError] that
    [_place_order] raises itself, the [KeyError] of a dictionary lookup, and
    the error the brokerage client raises when a request is rejected. *)
Inductive PyException : Type :=
| ValueError (msg : string)
| KeyError (key : string)
| APIError.

(** Outcome of a call: a returned value or a raised exception. *)
Inductive result (A : Type) : Type :=
| Returned (a : A)
| Raised (e : PyException).
Arguments Returned {A} a.
Arguments Raised {A} e.

(** A numpy float: an exact number, or [nan]. *)
Inductive npfloat : Type :=
| Num (q : Q)
| NaN.

(** [a > b] and [a < b] on numpy floats: any comparison with [nan] is false. *)
Definition np_gt (a b : npfloat) : bool :=
  match a, b with
  | Num x, Num y => match (x ?= y)%Q with Gt => true | _ => false end
  | _, _ => false
  end.

Definition np_lt (a b : npfloat) : bool :=
  match a, b with
  | Num x, Num y => match (x ?= y)%Q with Lt => true | _ => false end
  | _, _ => false
  end.

(** Truth value of an [Optional[float]] argument: [None] and zero are false. *)
Definition truthy (x : option Q) : bool :=
  match x with
  | None => false
  | Some q => negb (Qeq_bool q 0)
  end.

(** Python's [a or b]: [a] when it is true, [b] otherwise. *)
Definition py_or (a b : option Q) : option Q :=
  if truthy a then a else b.

(** ** Signal Engine *)

Definition Qsum (xs : list Q) : Q := fold_right Qplus 0%Q xs.

(** Arithmetic mean of a non-empty window. *)
Definition mean (xs : list Q) : Q :=
  (Qsum xs / inject_Z (Z.of_nat (List.length xs)))%Q.

(** [np.mean]: the mean of an empty list is [nan] (numpy warns, it does not
    raise). *)
Definition np_mean (xs : list Q) : npfloat :=
  match xs with
  | [] => NaN
  | _ :: _ => Num (mean xs)
  end.

(** [Trader.make_decision] (trader.py, 282-308). *)
Definition make_decision (short_prices_5d long_prices_20d : list Q)
  : result (option OrderSide * Q) :=
  let sma_5d := np_mean short_prices_5d in
  let sma_20d := np_mean long_prices_20d in
  if np_gt sma_5d sma_20d then Returned (Some BUY, 0.75%Q)
  else if np_lt sma_5d sma_20d then Returned (Some SELL, 0.10%Q)
  else Returned (Some BUY, 0.50%Q).

(** ** Wall-clock time

    [datetime.now(ny_tz)]: a calendar date, kept as its proleptic Gregorian
    ordinal ([date.toordinal()], day 1 is Monday 0001-01-01), and the four
    time-of-day fields.  All datetimes of the program carry the same time
    zone, so Python does their arithmetic on the wall-clock fields. *)
Record datetime : Type := mk_datetime {
  ordinal : Z;
  hour : Z;
  minute : Z;
  second : Z;
  microsecond : Z
}.

(** [datetime.weekday()]: Monday is 0, Sunday is 6. *)
Definition weekday (d : datetime) : Z := (ordinal d + 6) mod 7.

(** [d + timedelta(days=n)]. *)
Definition plus_days (d : datetime) (n : Z) : datetime :=
  mk_datetime (ordinal d + n) (hour d) (minute d) (second d) (microsecond d).

(** [d.replace(hour=h, minute=m, second=s)]: the microsecond is kept. *)
Definition replace_hms (d : datetime) (h m s : Z) : datetime :=
  mk_datetime (ordinal d) h m s (microsecond d).

(** [datetime.time] values, compared field by field. *)
Record time : Type := mk_time {
  t_hour : Z;
  t_minute : Z;
  t_second : Z;
  t_microsecond : Z
}.

(** [time(h, m)]. *)
Definition time_hm (h m : Z) : time := mk_time h m 0 0.

(** [d.time()]. *)
Definition time_of (d : datetime) : time :=
  mk_time (hour d) (minute d) (second d) (microsecond d).

Definition lex (c1 c2 : comparison) : comparison :=
  match c1 with Eq => c2 | _ => c1 end.

Definition time_compare (a b : time) : comparison :=
  lex (t_hour a ?= t_hour b)
    (lex (t_minute a ?= t_minute b)
       (lex (t_second a ?= t_second b) (t_microsecond a ?= t_microsecond b))).

Definition time_ltb (a b : time) : bool :=
  match time_compare a b with Lt => true | _ => false end.
Definition time_gtb (a b : time) : bool :=
  match time_compare a b with Gt => true | _ => false end.
Definition time_leb (a b : time) : bool := negb (time_gtb a b).

(** Microseconds since midnight before day 0, for differences. *)
Definition to_microseconds (d : datetime) : Z :=
  (((ordinal d * 24 + hour d) * 60 + minute d) * 60 + second d) * 1000000
  + microsecond d.

Definition of_microseconds (t : Z) : datetime :=
  mk_datetime (t / 86400000000) ((t / 3600000000) mod 24)
    ((t / 60000000) mod 60) ((t / 1000000) mod 60) (t mod 1000000).

(** [(a - b).total_seconds()]. *)
Definition total_seconds_between (a b : datetime) : Q :=
  (to_microseconds a - to_microseconds b) # 1000000.

(** The clock after [seconds] have passed. *)
Definition advance (d : datetime) (seconds : Q) : datetime :=
  of_microseconds (to_microseconds d + Qfloor (seconds * 1000000)).

(** ** The world: brokerage, market data, clock, files *)

Inductive OrderType : Type := MARKET.
Inductive TimeInForce : Type := DAY.

(** The [MarketOrderRequest] built from [request_params]. *)
Record MarketOrderRequest : Type := mk_request {
  req_symbol : string;
  req_side : OrderSide;
  req_type : OrderType;
  req_time_in_force : TimeInForce;
  req_qty : option Q;
  req_notional : option Q
}.

(** The order handle: the fields the code reads. *)
Record Order : Type := mk_order {
  order_id : nat;
  order_status : string
}.

Record Position : Type := mk_position {
  pos_symbol : string;
  pos_qty : Q
}.

Record Bar : Type := mk_bar {
  bar_timestamp : Z;
  bar_close : Q
}.

(** [BarSet.data]: a dictionary from symbol to bars. *)
Definition BarSet : Type := list (string * list Bar).

(** [d[key]] on such a dictionary; [None] stands for the missing key. *)
Fixpoint dict_get (key : string) (d : BarSet) : option (list Bar) :=
  match d with
  | [] => None
  | (k, v) :: rest => if String.eqb k key then Some v else dict_get key rest
  end.

(** One line of the trade log: fixed text (the header), or the fields of
    one formatted trade row. *)
Inductive Line : Type :=
| Text (s : string)
| TradeRow (timestamp : datetime) (symbol : string) (amount : option Q)
    (trade_type : string) (side : OrderSide) (status : string).

Inductive Node : Type :=
| Directory
| File (lines : list Line).

(** Paths and what is stored under them. *)
Definition FileSystem : Type := list (string * Node).

(** Calls that leave the process, in the order they were made. *)
Inductive Event : Type :=
| EvSleep (seconds : Q)
| EvSubmitOrder (request : MarketOrderRequest)
| EvGetOrderById (id : nat)
| EvCancelOrderById (id : nat)
| EvCancelOrders.

Record World : Type := mk_world {
  clock : datetime;
  local_zone : datetime -> datetime;
  account_cash : Q;
  all_positions : list Position;
  position_reply : string -> result (option Position);
  stock_bars : string -> datetime -> datetime -> nat -> BarSet;
  submit_reply : MarketOrderRequest -> result Order;
  poll_feed : nat -> string;
  polls : nat;
  random_choice : bool;
  trace : list Event;
  fs : FileSystem
}.

Definition with_clock (c : datetime) (w : World) : World :=
  mk_world c (local_zone w) (account_cash w) (all_positions w)
    (position_reply w) (stock_bars w) (submit_reply w) (poll_feed w) (polls w)
    (random_choice w) (trace w) (fs w).

Definition with_polls (n : nat) (w : World) : World :=
  mk_world (clock w) (local_zone w) (account_cash w) (all_positions w)
    (position_reply w) (stock_bars w) (submit_reply w) (poll_feed w) n
    (random_choice w) (trace w) (fs w).

Definition with_fs (f : FileSystem) (w : World) : World :=
  mk_world (clock w) (local_zone w) (account_cash w) (all_positions w)
    (position_reply w) (stock_bars w) (submit_reply w) (poll_feed w) (polls w)
    (random_choice w) (trace w) f.

Definition record_event (e : Event) (w : World) : World :=
  mk_world (clock w) (local_zone w) (account_cash w) (all_positions w)
    (position_reply w) (stock_bars w) (submit_reply w) (poll_feed w) (polls w)
    (random_choice w) (trace w ++ [e]) (fs w).

(** ** The effect monad *)

Definition M (A : Type) : Type := World -> result A * World.

Definition ret {A : Type} (a : A) : M A := fun w => (Returned a, w).

Definition raise {A : Type} (e : PyException) : M A := fun w => (Raised e, w).

Definition bind {A B : Type} (c : M A) (k : A -> M B) : M B :=
  fun w =>
    match c w with
    | (Returned a, w') => k a w'
    | (Raised e, w') => (Raised e, w')
    end.

Notation "x <- c ;; k" := (bind c (fun x => k))
  (at level 61, c at next level, right associativity).
Notation "c ;;; k" := (bind c (fun _ => k))
  (at level 61, right associativity).

(** A pure call that may raise, run inside [M]. *)
Definition lift_result {A : Type} (r : result A) : M A := fun w => (r, w).

(** A state change that cannot raise. *)
Definition lift_state {A : Type} (f : World -> A * World) : M A :=
  fun w => let (a, w') := f w in (Returned a, w').

(** ** Primitive calls *)

(** [datetime.now(ny_tz)]. *)
Definition datetime_now : M datetime := fun w => (Returned (clock w), w).

(** [datetime.now()]: the same instant on the wall clock of the machine's
    own time zone. *)
Definition local_now (w : World) : datetime := local_zone w (clock w).

(** [systime.sleep(seconds)]: the call is recorded and the clock moves on. *)
Definition do_sleep (seconds : Q) (w : World) : World :=
  with_clock (advance (clock w) seconds) (record_event (EvSleep seconds) w).

Definition sleep (seconds : Q) : M unit :=
  fun w => (Returned tt, do_sleep seconds w).

(** [trade_client.get_order_by_id(id)]: the brokerage answers with the next
    status of its feed. *)
Definition do_get_order_by_id (id : nat) (w : World) : Order * World :=
  (mk_order id (poll_feed w (polls w)),
   with_polls (S (polls w)) (record_event (EvGetOrderById id) w)).

(** [trade_client.cancel_order_by_id(id)]. *)
Definition cancel_order_by_id (id : nat) : M unit :=
  fun w => (Returned tt, record_event (EvCancelOrderById id) w).

(** [trade_client.cancel_orders()]. *)
Definition cancel_orders : M unit :=
  fun w => (Returned tt, record_event EvCancelOrders w).

(** [trade_client.submit_order(request)]: the brokerage returns the new
    order or rejects the request. *)
Definition submit_order (request : MarketOrderRequest) : M Order :=
  fun w => (submit_reply w request, record_event (EvSubmitOrder request) w).

(** [float(trade_client.get_account().cash)]. *)
Definition get_account_cash : M Q := fun w => (Returned (account_cash w), w).

(** [trade_client.get_all_positions()]. *)
Definition get_all_positions : M (list Position) :=
  fun w => (Returned (all_positions w), w).

(** [trade_client.get_position(symbol)]. *)
Definition get_position (symbol : string) : M (option Position) :=
  fun w => (position_reply w symbol, w).

(** ** Files *)

Fixpoint fs_lookup (path : string) (f : FileSystem) : option Node :=
  match f with
  | [] => None
  | (p, n) :: rest => if String.eqb p path then Some n else fs_lookup path rest
  end.

Fixpoint fs_store (path : string) (n : Node) (f : FileSystem) : FileSystem :=
  match f with
  | [] => [(path, n)]
  | (p, n') :: rest =>
      if String.eqb p path then (path, n) :: rest
      else (p, n') :: fs_store path n rest
  end.

(** [os.path.exists(path)]. *)
Definition path_exists (path : string) (f : FileSystem) : bool :=
  match fs_lookup path f with Some _ => true | None => false end.

(** [os.makedirs(path)]. *)
Definition makedirs (path : string) (f : FileSystem) : FileSystem :=
  fs_store path Directory f.

(** [open(path, "w")] and one [write]: the file holds this line only. *)
Definition write_file (path : string) (l : Line) (f : FileSystem)
  : FileSystem :=
  fs_store path (File [l]) f.

(** [open(path, "a")] and one [write]: the line goes to the end; a file
    that is not there is created.  (A directory is never opened: the
    program creates its log paths as files.) *)
Definition append_file (path : string) (l : Line) (f : FileSystem)
  : FileSystem :=
  match fs_lookup path f with
  | Some (File ls) => fs_store path (File (ls ++ [l])) f
  | Some Directory => f
  | None => fs_store path (File [l]) f
  end.

(** The lines of the file at [path]; none when there is no such file. *)
Definition file_lines (path : string) (f : FileSystem) : list Line :=
  match fs_lookup path f with
  | Some (File ls) => ls
  | _ => []
  end.

(** ** The poll loop

    Both source files run the same loop (trader.py 183-189, main.py
    99-104): while the order is not filled and time remains, sleep 60
    seconds, take 60 off the remaining time and fetch the order again. *)

Definition not_filled (order : Order) : bool :=
  negb (String.eqb (order_status order) "filled").

Definition wait_step : Z := 60.

Equations? wait_for_fill (order : Order) (remaining_time : Z) (w : World)
  : Order * World by wf (Z.to_nat remaining_time) lt :=
  wait_for_fill order remaining_time w with not_filled order => {
    | false := (order, w);
    | true with Z_lt_dec 0 remaining_time => {
      | right _ := (order, w);
      | left _ :=
          let w1 := do_sleep (inject_Z wait_step) w in
          let polled := do_get_order_by_id (order_id order) w1 in
          wait_for_fill (fst polled) (remaining_time - wait_step)
            (snd polled) } }.
Proof. unfold wait_step. lia. Qed.

(** ** trader.py: class [Trader] *)

(** The attributes of [self] that the methods below read. *)
Record Trader : Type := mk_trader {
  symbol : string;
  max_wait : Z;
  quick_test : bool
}.

Definition trade_log_header : string :=
  "timestamp,symbol,amount,trade_type,side,status".

(** [Trader._update_trade_log] (trader.py, 200-227). *)
Definition _update_trade_log (self : Trader) (amount : option Q)
    (trade_type : string) (side : OrderSide) (status : string) : M unit :=
  fun w =>
    let f := fs w in
    let f := if negb (path_exists "logs" f) then makedirs "logs" f else f in
    let log_file := "logs/trade_log.csv" in
    let f :=
      if negb (path_exists log_file f)
      then write_file log_file (Text trade_log_header) f
      else f in
    let f :=
      append_file log_file
        (TradeRow (local_now w) (symbol self) amount trade_type side status) f in
    (Returned tt, with_fs f w).

(** [Trader._monitor_order] (trader.py, 167-198). *)
Definition _monitor_order (self : Trader) (order : Order) (amount : option Q)
    (trade_type : string) (side : OrderSide) : M bool :=
  let remaining_time := max_wait self in
  order <- lift_state (wait_for_fill order remaining_time) ;;
  let status := if not_filled order then "CANCELLED" else "FILLED" in
  _update_trade_log self amount trade_type side status ;;;
  (if not_filled order then cancel_order_by_id (order_id order) else ret tt) ;;;
  ret (String.eqb (order_status order) "filled").

(** [Trader._place_order] (trader.py, 131-165). *)
Definition _place_order (self : Trader) (qty notional : option Q)
    (side : OrderSide) : M bool :=
  let order_type := if truthy notional then "NOTIONAL" else "FRACTIONAL" in
  request <-
    (if truthy notional then
       ret (mk_request (symbol self) side MARKET DAY None notional)
     else if truthy qty then
       ret (mk_request (symbol self) side MARKET DAY qty None)
     else raise (ValueError "Either 'qty' or 'notional' must be provided.")) ;;
  order <- submit_order request ;;
  _monitor_order self order (py_or qty notional) order_type side.

(** [Trader._fetch_stock_bars] (trader.py, 229-262). *)
Definition _fetch_stock_bars (self : Trader) (start_date end_date : datetime)
    (limit : nat) : M BarSet :=
  fun w => (Returned (stock_bars w (symbol self) start_date end_date limit), w).

(** [sorted(closing_prices, key=lambda x: x[0])]: a stable sort by
    timestamp. *)
Fixpoint insert_by_timestamp (b : Bar) (sorted : list Bar) : list Bar :=
  match sorted with
  | [] => [b]
  | b' :: rest =>
      if bar_timestamp b <=? bar_timestamp b' then b :: b' :: rest
      else b' :: insert_by_timestamp b rest
  end.

Definition sorted_by_timestamp (bars : list Bar) : list Bar :=
  fold_right insert_by_timestamp [] bars.

(** [Trader._fetch_stock_closing_prices] (trader.py, 264-280);
    [bars.data[self.symbol]] raises [KeyError] when the bar set has no entry
    for the symbol. *)
Definition _fetch_stock_closing_prices (self : Trader) (bars : BarSet)
  : result (list Q) :=
  match dict_get (symbol self) bars with
  | None => Raised (KeyError (symbol self))
  | Some data => Returned (map bar_close (sorted_by_timestamp data))
  end.

(** The order step of a cycle (trader.py, 352-366). *)
Definition act_on_decision (self : Trader) (side : option OrderSide)
    (multiplier : Q) : M unit :=
  match side with
  | Some BUY =>
      cash <- get_account_cash ;;
      let notional := (cash * multiplier)%Q in
      _place_order self None (Some notional) BUY ;;;
      ret tt
  | Some SELL =>
      positions <- get_all_positions ;;
      let symbol_positions :=
        filter (fun pos => String.eqb (pos_symbol pos) (symbol self))
          positions in
      match symbol_positions with
      | position :: _ =>
          let qty := (pos_qty position * multiplier)%Q in
          _place_order self (Some qty) None SELL ;;;
          ret tt
      | [] => ret tt
      end
  | None => ret tt
  end.

(** The in-session branch of [run] (trader.py, 328-367): fetch both
    windows, decide, trade, and come back in two days. *)
Definition trade_cycle (self : Trader) (now : datetime) : M datetime :=
  stock_bars_5d <-
    _fetch_stock_bars self (plus_days now (-6)) (plus_days now (-1)) 5 ;;
  stock_bars_20d <-
    _fetch_stock_bars self (plus_days now (-21)) (plus_days now (-1)) 20 ;;
  short_prices <-
    lift_result (_fetch_stock_closing_prices self stock_bars_5d) ;;
  long_prices <-
    lift_result (_fetch_stock_closing_prices self stock_bars_20d) ;;
  decision <- lift_result (make_decision short_prices long_prices) ;;
  act_on_decision self (fst decision) (snd decision) ;;;
  ret (plus_days now 2).

(** The choice of [next_open] in one pass of [run] (trader.py, 319-370). *)
Definition next_open_of (self : Trader) (now : datetime) : M datetime :=
  if (weekday now <? 5) || quick_test self then
    if time_gtb (time_of now) (time_hm 16 0) && negb (quick_test self) then
      ret (replace_hms (plus_days now 1) 9 30 0)
    else if time_ltb (time_of now) (time_hm 9 30) && negb (quick_test self) then
      ret (replace_hms now 9 30 0)
    else trade_cycle self now
  else ret (plus_days now 1).

(** One pass of the body of [while True] in [Trader.run]
    (trader.py, 316-375). *)
Definition run_iteration (self : Trader) : M unit :=
  now <- datetime_now ;;
  next_open <- next_open_of self now ;;
  let sleep_time :=
    if negb (quick_test self) then total_seconds_between next_open now
    else 60%Q in
  sleep sleep_time.

(** [Trader.run], observed for its first [passes] passes: the loop has no
    exit of its own, so it stops early only when a pass raises. *)
Fixpoint run (self : Trader) (passes : nat) : M unit :=
  match passes with
  | O => ret tt
  | S n => run_iteration self ;;; run self n
  end.

(** ** main.py: the procedural twin

    [config.py] is not among the sources; the constants that main.py
    imports from it are the fields of [Config]. *)
Record Config : Type := mk_config {
  SYMBOL : string;
  MAX_WAIT : Z
}.

Module Main.

Definition trade_log_header : string :=
  "time,symbol,notional,trade_type,side,status".

(** [update_trade_log] (main.py, 116-124). *)
Definition update_trade_log (symbol : string) (amount : option Q)
    (trade_type : string) (side : OrderSide) (status : string) : M unit :=
  fun w =>
    let f := fs w in
    let log_file := "trade_log.csv" in
    let f :=
      if negb (path_exists log_file f)
      then write_file log_file (Text trade_log_header) f
      else f in
    let f :=
      append_file log_file
        (TradeRow (local_now w) symbol amount trade_type side status) f in
    (Returned tt, with_fs f w).

(** [monitor_order] (main.py, 97-113). *)
Definition monitor_order (cfg : Config) (order : Order) (symbol : string)
    (amount : option Q) (trade_type : string) (side : OrderSide)
  : M (option Order) :=
  let remaining_time := MAX_WAIT cfg in
  order <- lift_state (wait_for_fill order remaining_time) ;;
  if not_filled order then
    cancel_order_by_id (order_id order) ;;;
    update_trade_log symbol amount trade_type side "CANCELLED" ;;;
    ret None
  else
    update_trade_log symbol amount trade_type side "FILLED" ;;;
    ret (Some order).

(** [place_order] (main.py, 71-94). *)
Definition place_order (cfg : Config) (symbol : string)
    (qty notional : option Q) (side : OrderSide) : M (option Order) :=
  let order_type := if truthy notional then "NOTIONAL" else "FRACTIONAL" in
  request <-
    (if truthy notional then
       ret (mk_request symbol side MARKET DAY None notional)
     else if truthy qty then
       ret (mk_request symbol side MARKET DAY qty None)
     else raise (ValueError "Either 'qty' or 'notional' must be provided.")) ;;
  order <- submit_order request ;;
  monitor_order cfg order symbol (py_or qty notional) order_type side.

(** [execute_daily_trade_strategy] (main.py, 127-141); the coin of
    [random.choice] is the world's [random_choice]. *)
Definition execute_daily_trade_strategy (cfg : Config) (symbol : string)
  : M unit :=
  cancel_orders ;;;
  heads <- (fun w => (Returned (random_choice w), w)) ;;
  let strategy := if heads : bool then BUY else SELL in
  match strategy with
  | BUY =>
      cash <- get_account_cash ;;
      let notional := (cash * 0.4)%Q in
      place_order cfg symbol None (Some notional) BUY ;;;
      ret tt
  | SELL =>
      position <- get_position symbol ;;
      match position with
      | Some pos =>
          let qty := (pos_qty pos * 0.3)%Q in
          place_order cfg symbol (Some qty) None SELL ;;;
          ret tt
      | None => ret tt
      end
  end.

(** One pass of the body of [while True] in [run_trade_loop]
    (main.py, 148-169). *)
Definition run_trade_loop_iteration (cfg : Config) (symbol : string)
  : M unit :=
  now <- datetime_now ;;
  if weekday now <? 5 then
    if time_leb (time_hm 9 30) (time_of now)
       && time_leb (time_of now) (time_hm 16 0) then
      execute_daily_trade_strategy cfg symbol
    else if time_ltb (time_of now) (time_hm 9 30) then
      sleep (total_seconds_between (replace_hms now 9 30 0) now)
    else ret tt
  else
    let next_open := plus_days now 1 in
    let next_open := replace_hms next_open 9 30 0 in
    sleep (total_seconds_between next_open now).

(** [run_trade_loop], observed for its first [passes] passes. *)
Fixpoint run_trade_loop (cfg : Config) (symbol : string) (passes : nat)
  : M unit :=
  match passes with
  | O => ret tt
  | S n =>
      run_trade_loop_iteration cfg symbol ;;; run_trade_loop cfg symbol n
  end.

End Main.

(** ** Observations on a world *)

(** The order requests sent to the brokerage, oldest first. *)
Fixpoint submitted (t : list Event) : list MarketOrderRequest :=
  match t with
  | [] => []
  | EvSubmitOrder r :: rest => r :: submitted rest
  | _ :: rest => submitted rest
  end.

(** The trade rows among some lines. *)
Definition is_trade_row (l : Line) : bool :=
  match l with TradeRow _ _ _ _ _ _ => true | Text _ => false end.



(** The ledger of trader.py and the ledger of main.py. *)
Definition ledger (w : World) : list Line :=
  file_lines "logs/trade_log.csv" (fs w).


(** The request that [_place_order] and [place_order] build when one of
    the two amounts is usable: the notional amount has precedence. *)
Definition request_for (symbol : string) (qty notional : option Q)
    (side : OrderSide) : MarketOrderRequest :=
  if truthy notional then mk_request symbol side MARKET DAY None notional
  else mk_request symbol side MARKET DAY qty None.

(** The two price windows a pass of [run] at [now] works from, and the
    positions it finds for its symbol. *)
Definition short_window (self : Trader) (now : datetime) (w : World)
  : result (list Q) :=
  _fetch_stock_closing_prices self
    (stock_bars w (symbol self) (plus_days now (-6)) (plus_days now (-1))
       5%nat).

Definition long_window (self : Trader) (now : datetime) (w : World)
  : result (list Q) :=
  _fetch_stock_closing_prices self
    (stock_bars w (symbol self) (plus_days now (-21)) (plus_days now (-1))
       20%nat).

Definition held_positions (self : Trader) (w : World) : list Position :=
  filter (fun pos => String.eqb (pos_symbol pos) (symbol self))
    (all_positions w).

(** The test under which a pass of [run] takes its trading branch. *)
Definition in_session (self : Trader) (now : datetime) : bool :=
  ((weekday now <? 5) || quick_test self)
  && negb (time_gtb (time_of now) (time_hm 16 0) && negb (quick_test self))
  && negb (time_ltb (time_of now) (time_hm 9 30) && negb (quick_test self)).

(** ** Sample inputs *)

(** Saturday 2024-01-06, Sunday 2024-01-07 and Monday 2024-01-08. *)
Definition saturday_10h : datetime := mk_datetime 738891 10 0 0 0.
Definition monday_10h : datetime := mk_datetime 738893 10 0 0 0.

(** A world at [now], on a machine set to the venue's time zone, with
    the given cash and positions and no files, a brokerage that answers
    every submission with [reply] and every poll from [feed], and a data
    service that serves [bars limit] for a window of [limit] bars. *)
Definition sample_world (now : datetime) (cash : Q)
    (positions : list Position) (bars : nat -> list Bar)
    (reply : result Order) (feed : nat -> string) : World :=
  mk_world now (fun d => d) cash positions
    (fun _ => Returned (hd_error positions))
    (fun sym _ _ limit => [(sym, bars limit)]) (fun _ => reply) feed 0 true
    [] [].

Definition no_bars : nat -> list Bar := fun _ => [].

(** Closing prices 12 over the short window, 10 and 12 over the long one. *)
Definition rising_bars : nat -> list Bar :=
  fun limit =>
    if Nat.leb limit 5 then [mk_bar 2 12%Q]
    else [mk_bar 1 10%Q; mk_bar 2 12%Q].

(** Closing prices 10 over the short window, 12 and 10 over the long one. *)
Definition falling_bars : nat -> list Bar :=
  fun limit =>
    if Nat.leb limit 5 then [mk_bar 2 10%Q]
    else [mk_bar 1 12%Q; mk_bar 2 10%Q].

(** [None] or a zero amount: the arguments Python takes for false. *)
Definition zero_or_none (x : option Q) : Prop :=
  match x with
  | None => True
  | Some q => (q == 0)%Q
  end.

Definition value_error_message : string :=
  "Either 'qty' or 'notional' must be provided.".

Definition always_pending : nat -> string := fun _ => "pending".

(** Pending on the first poll, filled from the second on. *)
Definition filled_on_second_poll : nat -> string :=
  fun n => match n with O => "pending" | S _ => "filled" end.

Definition pending_order : Order := mk_order 1 "pending".

Definition sample_trader (max_wait : Z) : Trader :=
  mk_trader "VOO" max_wait false.

Definition sample_config (max_wait : Z) : Config := mk_config "VOO" max_wait.

(** ** Start-up: account validation

    The account and its configuration are what [get_account] and
    [get_account_configurations] return; the fields are the ones the
    validation reads. *)
Record Account : Type := mk_account {
  acct_status : string;
  acct_cash : Q
}.

Record AccountConfigurations : Type := mk_configurations {
  fractional_trading : bool
}.

(** [x < y] on floats. *)
Definition Qltb (x y : Q) : bool :=
  match (x ?= y)%Q with Lt => true | _ => false end.

Definition newline : string := String (Ascii.ascii_of_nat 10) EmptyString.

(** The text of the validation errors. *)
Definition not_active_error : string :=
  "Account is not active. Please check your account status.".
Definition no_fractional_error : string :=
  "Fractional trading is not enabled. Please enable it.".
Definition negative_balance_error : string :=
  "Balance is negative. Please deposit funds to continue trading.".
Definition insufficient_cash_error : string :=
  "Insufficient cash to trade. Please deposit more funds.".

(** The error message built from the list of errors: one line per error,
    each behind a dash. *)
Definition error_message_of (errors : list string) : string :=
  String.concat newline (map (fun err => "- " ++ err)%string errors).

(** [Trader._validate_account] (trader.py, 69-102). *)
Definition _validate_account (account : Account)
    (configurations : AccountConfigurations) : bool * option string :=
  let errors := [] in
  let errors :=
    if negb (String.eqb (acct_status account) "ACTIVE")
    then errors ++ [not_active_error] else errors in
  let errors :=
    if negb (fractional_trading configurations)
    then errors ++ [no_fractional_error] else errors in
  let errors :=
    if Qltb (acct_cash account) 0
    then errors ++ [negative_balance_error] else errors in
  match errors with
  | _ :: _ => (false, Some (error_message_of errors))
  | [] => (true, None)
  end.

(** How start-up ends: with a value, or with the [RuntimeError] raised on
    a failed validation, carrying the error message. *)
Inductive startup (A : Type) : Type :=
| Ready (a : A)
| RuntimeError (error : option string).
Arguments Ready {A} a.
Arguments RuntimeError {A} error.

(** [Trader._get_trading_client] (trader.py, 104-118): the client is for
    the paper or the live account, [brokerage paper] being the account and
    configuration behind it. *)
Definition _get_trading_client
    (brokerage : bool -> Account * AccountConfigurations) (paper : bool)
  : startup bool :=
  let trade_client := paper in
  let (account, configurations) := brokerage trade_client in
  let (is_valid, error) := _validate_account account configurations in
  if negb is_valid then RuntimeError error else Ready trade_client.

(** [Trader.__init__] (trader.py, 37-58): the attributes of [self], and
    which account its client trades on. *)
Definition Trader_init
    (brokerage : bool -> Account * AccountConfigurations)
    (symbol : string) (paper : bool) (max_wait : Z) (quick_test : bool)
  : startup (Trader * bool) :=
  let paper := if negb quick_test then paper else true in
  match _get_trading_client brokerage paper with
  | Ready trade_client =>
      Ready (mk_trader symbol max_wait quick_test, trade_client)
  | RuntimeError error => RuntimeError error
  end.

Module MainStartup.

(** [validate_account] (main.py, 32-55); [MIN_CASH] comes from
    [config.py]. *)
Definition validate_account (MIN_CASH : Q) (account : Account)
    (configurations : AccountConfigurations) : bool * option string :=
  let errors := [] in
  let errors :=
    if negb (String.eqb (acct_status account) "ACTIVE")
    then errors ++ [not_active_error] else errors in
  let errors :=
    if negb (fractional_trading configurations)
    then errors ++ [no_fractional_error] else errors in
  let errors :=
    if Qltb (acct_cash account) MIN_CASH
    then errors ++ [insufficient_cash_error] else errors in
  match errors with
  | _ :: _ => (false, Some (error_message_of errors))
  | [] => (true, None)
  end.

(** [get_trading_client] (main.py, 58-68); [PAPER] comes from
    [config.py]. *)
Definition get_trading_client (MIN_CASH : Q) (PAPER : bool)
    (brokerage : bool -> Account * AccountConfigurations) : startup bool :=
  let trade_client := PAPER in
  let (account, configurations) := brokerage trade_client in
  let (is_valid, error) := validate_account MIN_CASH account configurations in
  if negb is_valid then RuntimeError error else Ready trade_client.

(** [main] (main.py, 172-176), the loop observed for [passes] passes. *)
Definition main (cfg : Config) (MIN_CASH : Q) (PAPER : bool)
    (brokerage : bool -> Account * AccountConfigurations) (passes : nat)
    (w : World) : startup (result unit) * World :=
  match get_trading_client MIN_CASH PAPER brokerage with
  | Ready _ =>
      let (r, w') := Main.run_trade_loop cfg (SYMBOL cfg) passes w in
      (Ready r, w')
  | RuntimeError error => (RuntimeError error, w)
  end.

End MainStartup.

(** ** More observations *)

(** Bars in chronological order. *)
Definition chronological (a b : Bar) : Prop :=
  bar_timestamp a <= bar_timestamp b.

(** [k] rounds of the poll loop on order [id]: a sleep, then a poll. *)
Fixpoint rounds (id : nat) (k : nat) : list Event :=
  match k with
  | O => []
  | S k' => EvSleep 60 :: EvGetOrderById id :: rounds id k'
  end.

(** The requests [run] of trader.py should only ever send: a day market
    order for its own symbol, a BUY sized by a notional amount other than
    zero or a SELL sized by a quantity other than zero. *)
Definition proper_request (self : Trader) (r : MarketOrderRequest) : bool :=
  String.eqb (req_symbol r) (symbol self)
  && match req_side r, req_qty r, req_notional r with
     | BUY, None, Some n => negb (Qeq_bool n 0)
     | SELL, Some q, None => negb (Qeq_bool q 0)
     | _, _, _ => false
     end.

(** A clock reading with its fields in range. *)
Definition well_formed (d : datetime) : Prop :=
  0 <= hour d < 24 /\ 0 <= minute d < 60 /\ 0 <= second d < 60 /\
  0 <= microsecond d < 1000000.

(** The ledger file of trader.py as the program itself makes it: not
    there yet, or the header line followed by trade rows only. *)
Definition ledger_fine (f : FileSystem) : Prop :=
  fs_lookup "logs/trade_log.csv" f = None \/
  exists rows,
    fs_lookup "logs/trade_log.csv" f
      = Some (File (Text trade_log_header :: rows)) /\
    forallb is_trade_row rows = true.

(** From [f] to [f'] the ledger file only got longer, and stayed as the
    program makes it if it was. *)
Definition ledger_grows (f f' : FileSystem) : Prop :=
  (exists added,
     file_lines "logs/trade_log.csv" f'
     = file_lines "logs/trade_log.csv" f ++ added) /\
  (ledger_fine f -> ledger_fine f').

(** The test under which a pass of [run_trade_loop] of main.py trades. *)
Definition main_in_session (now : datetime) : bool :=
  (weekday now <? 5)
  && (time_leb (time_hm 9 30) (time_of now)
      && time_leb (time_of now) (time_hm 16 0)).

(** Worlds for the examples below. *)
Definition active_account (cash : Q) : Account * AccountConfigurations :=
  (mk_account "ACTIVE" cash, mk_configurations true).

Definition friday_17h : datetime := mk_datetime 738890 17 0 0 0.

(** * Theorems *)




(** C2, as stated, fails: with an empty short window the call returns a
    decision, it does not raise. *)
Lemma make_decision_empty_short_returns :
  make_decision [] [1%Q] = Returned (Some BUY, 0.50%Q) /\
  ~ (exists e, make_decision [] [1%Q] = Raised e).
Proof.
  split; [reflexivity |].
  intros [e He]. discriminate He.
Qed.

(** C2, amended. When at least one window is empty, [make_decision] does not
    raise: the empty window's mean is [nan], both comparisons are false, and
    the call returns (BUY, 0.50). *)
Theorem make_decision_empty_window (short long : list Q) :
  short = [] \/ long = [] ->
  make_decision short long = Returned (Some BUY, 0.50%Q).
Proof.
  intros [-> | ->]; unfold make_decision; simpl.
  - reflexivity.
  - destruct (np_mean short); reflexivity.
Qed.

Lemma make_decision_empty_window_witness :
  (([] : list Q) = [] \/ [1%Q] = []) /\
  make_decision [] [1%Q] = Returned (Some BUY, 0.50%Q).
Proof.
  split; [left; reflexivity |].
  apply (make_decision_empty_window [] [1%Q]). left; reflexivity.
Defined.

(** ** The file system *)

Lemma fs_lookup_store (p q : string) (n : Node) (f : FileSystem) :
  fs_lookup p (fs_store q n f) =
  if String.eqb q p then Some n else fs_lookup p f.
Proof.
  induction f as [| [p' n'] rest IH]; simpl.
  - destruct (String.eqb q p); reflexivity.
  - destruct (String.eqb p' q) eqn:Hq; simpl.
    + apply String.eqb_eq in Hq. subst p'.
      destruct (String.eqb q p); reflexivity.
    + destruct (String.eqb p' p) eqn:Hp.
      * apply String.eqb_eq in Hp. subst p'. rewrite String.eqb_sym in Hq.
        rewrite Hq. reflexivity.
      * exact IH.
Qed.







(** ** The poll loop *)

Lemma not_filled_true (order : Order) :
  order_status order <> "filled" -> not_filled order = true.
Proof.
  intros H. unfold not_filled. apply negb_true_iff, String.eqb_neq. exact H.
Qed.

(** The three cases of the [while] test. *)
Lemma wait_for_fill_filled (order : Order) (remaining_time : Z) (w : World) :
  not_filled order = false ->
  wait_for_fill order remaining_time w = (order, w).
Proof.
  intros H. rewrite wait_for_fill_equation_1.
  unfold wait_for_fill_unfold_clause_1. rewrite H. reflexivity.
Qed.


Lemma wait_for_fill_step (order : Order) (remaining_time : Z) (w : World) :
  not_filled order = true -> 0 < remaining_time ->
  wait_for_fill order remaining_time w =
  wait_for_fill
    (fst (do_get_order_by_id (order_id order) (do_sleep 60 w)))
    (remaining_time - 60)
    (snd (do_get_order_by_id (order_id order) (do_sleep 60 w))).
Proof.
  intros Hn Hr. rewrite wait_for_fill_equation_1.
  unfold wait_for_fill_unfold_clause_1. rewrite Hn.
  destruct (Z_lt_dec 0 remaining_time); [reflexivity | lia].
Qed.

(** Whatever a sleep and a poll leave alone, the whole loop leaves alone. *)
Lemma wait_for_fill_preserves {A : Type} (obs : World -> A) :
  (forall s w, obs (do_sleep s w) = obs w) ->
  (forall id w, obs (snd (do_get_order_by_id id w)) = obs w) ->
  forall order remaining_time w,
    obs (snd (wait_for_fill order remaining_time w)) = obs w.
Proof.
  intros Hsleep Hpoll order remaining_time w.
  funelim (wait_for_fill order remaining_time w); try reflexivity.
  match goal with
  | IH : forall A obs, _ -> _ -> obs (snd (wait_for_fill _ _ _)) = _ |- _ =>
      rewrite (IH _ obs Hsleep Hpoll)
  end.
  rewrite Hpoll. apply Hsleep.
Qed.

Lemma wait_for_fill_fs (order : Order) (remaining_time : Z) (w : World) :
  fs (snd (wait_for_fill order remaining_time w)) = fs w.
Proof. apply (wait_for_fill_preserves fs); reflexivity. Qed.


Lemma submitted_app (t1 t2 : list Event) :
  submitted (t1 ++ t2) = submitted t1 ++ submitted t2.
Proof.
  induction t1 as [| e t1 IH]; [reflexivity |].
  destruct e; simpl; rewrite IH; reflexivity.
Qed.

Lemma wait_for_fill_submitted (order : Order) (remaining_time : Z)
    (w : World) :
  submitted (trace (snd (wait_for_fill order remaining_time w))) =
  submitted (trace w).
Proof.
  apply (wait_for_fill_preserves (fun w => submitted (trace w))).
  - intros s w0. cbn. rewrite submitted_app. cbn. apply app_nil_r.
  - intros id w0. cbn. rewrite submitted_app. cbn. apply app_nil_r.
Qed.

Lemma wait_for_fill_submit_reply (order : Order) (remaining_time : Z)
    (w : World) :
  submit_reply (snd (wait_for_fill order remaining_time w)) = submit_reply w.
Proof. apply (wait_for_fill_preserves submit_reply); reflexivity. Qed.

(** The loop hands back the order it was given, refreshed. *)
Lemma wait_for_fill_order_id (order : Order) (remaining_time : Z) (w : World) :
  order_id (fst (wait_for_fill order remaining_time w)) = order_id order.
Proof.
  funelim (wait_for_fill order remaining_time w); try reflexivity.
  match goal with
  | IH : order_id (fst (wait_for_fill _ _ _)) = _ |- _ => rewrite IH
  end.
  reflexivity.
Qed.

(** ** One ledger row per resolved order *)




(** ** The monitor, unfolded around its loop *)

Lemma trader_monitor_unfold (self : Trader) (order : Order)
    (amount : option Q) (trade_type : string) (side : OrderSide) (w : World) :
  _monitor_order self order amount trade_type side w =
  let polled := wait_for_fill order (max_wait self) w in
  let status := if not_filled (fst polled) then "CANCELLED" else "FILLED" in
  let logged :=
    snd (_update_trade_log self amount trade_type side status (snd polled)) in
  (Returned (String.eqb (order_status (fst polled)) "filled"),
   if not_filled (fst polled)
   then record_event (EvCancelOrderById (order_id (fst polled))) logged
   else logged).
Proof.
  unfold _monitor_order, bind, lift_state.
  destruct (wait_for_fill order (max_wait self) w) as [o w1].
  cbn. destruct (not_filled o); reflexivity.
Qed.

Lemma main_monitor_unfold (cfg : Config) (order : Order) (symbol : string)
    (amount : option Q) (trade_type : string) (side : OrderSide) (w : World) :
  Main.monitor_order cfg order symbol amount trade_type side w =
  let polled := wait_for_fill order (MAX_WAIT cfg) w in
  if not_filled (fst polled) then
    (Returned None,
     snd (Main.update_trade_log symbol amount trade_type side "CANCELLED"
            (record_event (EvCancelOrderById (order_id (fst polled)))
               (snd polled))))
  else
    (Returned (Some (fst polled)),
     snd (Main.update_trade_log symbol amount trade_type side "FILLED"
            (snd polled))).
Proof.
  unfold Main.monitor_order, bind, lift_state.
  destruct (wait_for_fill order (MAX_WAIT cfg) w) as [o w1].
  cbn. destruct (not_filled o); reflexivity.
Qed.














(** ** Placing an order *)

Lemma zero_or_none_falsy (x : option Q) : zero_or_none x -> truthy x = false.
Proof.
  destruct x as [q |]; simpl; [| reflexivity].
  intros H. apply Qeq_bool_iff in H. rewrite H. reflexivity.
Qed.

Lemma nonzero_truthy (q : Q) : ~ (q == 0)%Q -> truthy (Some q) = true.
Proof.
  intros H. simpl. apply negb_true_iff.
  destruct (Qeq_bool q 0) eqn:E; [| reflexivity].
  apply Qeq_bool_iff in E. contradiction.
Qed.

(** With no usable amount the call raises before anything is sent. *)
Lemma trader_place_order_invalid (self : Trader) (qty notional : option Q)
    (side : OrderSide) (w : World) :
  truthy notional = false -> truthy qty = false ->
  _place_order self qty notional side w
  = (Raised (ValueError value_error_message), w).
Proof.
  intros Hn Hq. unfold _place_order, bind, raise. rewrite Hn, Hq.
  reflexivity.
Qed.

Lemma main_place_order_invalid (cfg : Config) (symbol : string)
    (qty notional : option Q) (side : OrderSide) (w : World) :
  truthy notional = false -> truthy qty = false ->
  Main.place_order cfg symbol qty notional side w
  = (Raised (ValueError value_error_message), w).
Proof.
  intros Hn Hq. unfold Main.place_order, bind, raise. rewrite Hn, Hq.
  reflexivity.
Qed.

(** With a usable amount the request is sent; a rejection is raised on,
    an accepted order is monitored. *)
Lemma trader_place_order_unfold (self : Trader) (qty notional : option Q)
    (side : OrderSide) (w : World) :
  truthy notional || truthy qty = true ->
  _place_order self qty notional side w =
  let request := request_for (symbol self) qty notional side in
  let sent := record_event (EvSubmitOrder request) w in
  match submit_reply w request with
  | Raised e => (Raised e, sent)
  | Returned order =>
      _monitor_order self order (py_or qty notional)
        (if truthy notional then "NOTIONAL" else "FRACTIONAL") side sent
  end.
Proof.
  intros H. unfold _place_order, request_for, bind, submit_order, ret.
  destruct (truthy notional); simpl in *.
  - destruct (submit_reply w _); reflexivity.
  - rewrite H. destruct (submit_reply w _); reflexivity.
Qed.

Lemma main_place_order_unfold (cfg : Config) (symbol : string)
    (qty notional : option Q) (side : OrderSide) (w : World) :
  truthy notional || truthy qty = true ->
  Main.place_order cfg symbol qty notional side w =
  let request := request_for symbol qty notional side in
  let sent := record_event (EvSubmitOrder request) w in
  match submit_reply w request with
  | Raised e => (Raised e, sent)
  | Returned order =>
      Main.monitor_order cfg order symbol (py_or qty notional)
        (if truthy notional then "NOTIONAL" else "FRACTIONAL") side sent
  end.
Proof.
  intros H. unfold Main.place_order, request_for, bind, submit_order, ret.
  destruct (truthy notional); simpl in *.
  - destruct (submit_reply w _); reflexivity.
  - rewrite H. destruct (submit_reply w _); reflexivity.
Qed.

(** Monitoring sends no order. *)
Lemma trader_monitor_submitted (self : Trader) (order : Order)
    (amount : option Q) (trade_type : string) (side : OrderSide) (w : World) :
  submitted (trace (snd (_monitor_order self order amount trade_type side w)))
  = submitted (trace w).
Proof.
  rewrite trader_monitor_unfold. cbv zeta. cbn [snd].
  destruct (not_filled _); cbn; rewrite ?submitted_app; cbn;
    rewrite ?app_nil_r; apply wait_for_fill_submitted.
Qed.

Lemma main_monitor_submitted (cfg : Config) (order : Order) (symbol : string)
    (amount : option Q) (trade_type : string) (side : OrderSide) (w : World) :
  submitted
    (trace (snd (Main.monitor_order cfg order symbol amount trade_type side w)))
  = submitted (trace w).
Proof.
  rewrite main_monitor_unfold. cbv zeta.
  destruct (not_filled _); cbn; rewrite ?submitted_app; cbn;
    rewrite ?app_nil_r; apply wait_for_fill_submitted.
Qed.

(** A call with a usable amount sends exactly one request. *)
Lemma trader_place_order_submitted (self : Trader) (qty notional : option Q)
    (side : OrderSide) (w : World) :
  truthy notional || truthy qty = true ->
  submitted (trace (snd (_place_order self qty notional side w)))
  = submitted (trace w) ++ [request_for (symbol self) qty notional side].
Proof.
  intros H. rewrite trader_place_order_unfold by exact H. cbv zeta.
  destruct (submit_reply w _).
  - rewrite trader_monitor_submitted. cbn. apply submitted_app.
  - cbn. apply submitted_app.
Qed.

Lemma main_place_order_submitted (cfg : Config) (symbol : string)
    (qty notional : option Q) (side : OrderSide) (w : World) :
  truthy notional || truthy qty = true ->
  submitted (trace (snd (Main.place_order cfg symbol qty notional side w)))
  = submitted (trace w) ++ [request_for symbol qty notional side].
Proof.
  intros H. rewrite main_place_order_unfold by exact H. cbv zeta.
  destruct (submit_reply w _).
  - rewrite main_monitor_submitted. cbn. apply submitted_app.
  - cbn. apply submitted_app.
Qed.

(** C8, as stated, fails in its second half: a call that gives both a
    quantity and a notional amount is not rejected; the order goes out,
    sized by the notional amount. *)
Lemma place_order_both_given_is_sent :
  fst (_place_order (sample_trader 300) (Some 2%Q) (Some 100%Q) BUY
         (sample_world monday_10h 1000%Q [] no_bars (Returned pending_order)
            filled_on_second_poll))
  = Returned true /\
  submitted
    (trace
       (snd (_place_order (sample_trader 300) (Some 2%Q) (Some 100%Q) BUY
               (sample_world monday_10h 1000%Q [] no_bars
                  (Returned pending_order) filled_on_second_poll))))
  = [mk_request "VOO" BUY MARKET DAY None (Some 100%Q)] /\
  fst (Main.place_order (sample_config 300) "VOO" (Some 2%Q) (Some 100%Q) BUY
         (sample_world monday_10h 1000%Q [] no_bars (Returned pending_order)
            filled_on_second_poll))
  = Returned (Some (mk_order 1 "filled")) /\
  submitted
    (trace
       (snd (Main.place_order (sample_config 300) "VOO" (Some 2%Q)
               (Some 100%Q) BUY
               (sample_world monday_10h 1000%Q [] no_bars
                  (Returned pending_order) filled_on_second_poll))))
  = [mk_request "VOO" BUY MARKET DAY None (Some 100%Q)].
Proof. vm_compute. repeat split. Qed.

(** C8, amended. A call that gives neither a quantity nor a notional
    amount raises [ValueError] before any order is sent.  A call that gives
    both, with a notional amount other than zero, is not rejected: exactly
    one request is sent, sized by the notional amount and carrying no
    quantity. *)
Theorem order_sizing_modes (self : Trader) (cfg : Config) (sym : string)
    (side : OrderSide) (w : World) :
  _place_order self None None side w
    = (Raised (ValueError value_error_message), w) /\
  Main.place_order cfg sym None None side w
    = (Raised (ValueError value_error_message), w) /\
  (forall q n : Q,
     ~ (n == 0)%Q ->
     submitted (trace (snd (_place_order self (Some q) (Some n) side w)))
       = submitted (trace w)
         ++ [mk_request (symbol self) side MARKET DAY None (Some n)] /\
     submitted
       (trace (snd (Main.place_order cfg sym (Some q) (Some n) side w)))
       = submitted (trace w)
         ++ [mk_request sym side MARKET DAY None (Some n)]).
Proof.
  split; [| split].
  - apply trader_place_order_invalid; reflexivity.
  - apply main_place_order_invalid; reflexivity.
  - intros q n Hn. pose proof (nonzero_truthy n Hn) as Ht. split.
    + rewrite trader_place_order_submitted by (rewrite Ht; reflexivity).
      unfold request_for. rewrite Ht. reflexivity.
    + rewrite main_place_order_submitted by (rewrite Ht; reflexivity).
      unfold request_for. rewrite Ht. reflexivity.
Qed.

Lemma order_sizing_modes_witness :
  submitted
    (trace
       (snd (_place_order (sample_trader 300) (Some 2%Q) (Some 100%Q) SELL
               (sample_world monday_10h 1000%Q [] no_bars
                  (Returned pending_order) always_pending))))
  = [mk_request "VOO" SELL MARKET DAY None (Some 100%Q)].
Proof.
  destruct (order_sizing_modes (sample_trader 300) (sample_config 300) "VOO"
              SELL
              (sample_world monday_10h 1000%Q [] no_bars
                 (Returned pending_order) always_pending))
    as [_ [_ Hboth]].
  destruct (Hboth 2%Q 100%Q) as [Htrader _].
  - discriminate.
  - exact Htrader.
Defined.

(** C10. A call whose notional amount is zero or [None] and whose quantity
    is zero or [None] raises [ValueError] and sends nothing, in both source
    files.  Hence a BUY sized from zero cash and a SELL sized from a position
    of zero shares raise instead of sending an order of size zero. *)
Theorem zero_sizing_raises (self : Trader) (cfg : Config) (sym : string)
    (w : World) :
  (forall (qty notional : option Q) (side : OrderSide),
     zero_or_none notional -> zero_or_none qty ->
     _place_order self qty notional side w
       = (Raised (ValueError value_error_message), w) /\
     Main.place_order cfg sym qty notional side w
       = (Raised (ValueError value_error_message), w)) /\
  (forall multiplier : Q,
     (account_cash w == 0)%Q ->
     act_on_decision self (Some BUY) multiplier w
       = (Raised (ValueError value_error_message), w)) /\
  (forall (multiplier : Q) (position : Position) (others : list Position),
     filter (fun pos => String.eqb (pos_symbol pos) (symbol self))
       (all_positions w) = position :: others ->
     (pos_qty position == 0)%Q ->
     act_on_decision self (Some SELL) multiplier w
       = (Raised (ValueError value_error_message), w)).
Proof.
  split; [| split].
  - intros qty notional side Hn Hq.
    apply zero_or_none_falsy in Hn. apply zero_or_none_falsy in Hq. split.
    + apply trader_place_order_invalid; assumption.
    + apply main_place_order_invalid; assumption.
  - intros m Hcash. unfold act_on_decision, bind, get_account_cash.
    rewrite trader_place_order_invalid; [reflexivity | | reflexivity].
    apply (zero_or_none_falsy (Some _)). simpl. rewrite Hcash.
    apply Qmult_0_l.
  - intros m p rest Hpos Hqty.
    unfold act_on_decision, bind, get_all_positions. rewrite Hpos.
    rewrite trader_place_order_invalid; [reflexivity | reflexivity |].
    apply (zero_or_none_falsy (Some _)). simpl. rewrite Hqty.
    apply Qmult_0_l.
Qed.

Lemma zero_sizing_raises_witness :
  _place_order (sample_trader 300) (Some 0%Q) None BUY
    (sample_world monday_10h 0%Q [mk_position "VOO" 0%Q] rising_bars
       (Returned pending_order) always_pending)
  = (Raised (ValueError value_error_message),
     sample_world monday_10h 0%Q [mk_position "VOO" 0%Q] rising_bars
       (Returned pending_order) always_pending) /\
  act_on_decision (sample_trader 300) (Some BUY) 0.75%Q
    (sample_world monday_10h 0%Q [mk_position "VOO" 0%Q] rising_bars
       (Returned pending_order) always_pending)
  = (Raised (ValueError value_error_message),
     sample_world monday_10h 0%Q [mk_position "VOO" 0%Q] rising_bars
       (Returned pending_order) always_pending) /\
  act_on_decision (sample_trader 300) (Some SELL) 0.10%Q
    (sample_world monday_10h 0%Q [mk_position "VOO" 0%Q] rising_bars
       (Returned pending_order) always_pending)
  = (Raised (ValueError value_error_message),
     sample_world monday_10h 0%Q [mk_position "VOO" 0%Q] rising_bars
       (Returned pending_order) always_pending).
Proof.
  destruct (zero_sizing_raises (sample_trader 300) (sample_config 300) "VOO"
              (sample_world monday_10h 0%Q [mk_position "VOO" 0%Q] rising_bars
                 (Returned pending_order) always_pending))
    as [Hcall [Hbuy Hsell]].
  split; [| split].
  - apply (Hcall (Some 0%Q) None BUY); simpl; [exact I | reflexivity].
  - apply Hbuy. reflexivity.
  - apply (Hsell 0.10%Q (mk_position "VOO" 0%Q) []); reflexivity.
Defined.

(** ** The ledger header *)




(** ** The market clock *)










(** ** One pass of the scheduler loop *)

Lemma make_decision_total (short long : list Q) :
  exists side multiplier,
    make_decision short long = Returned (Some side, multiplier).
Proof.
  unfold make_decision.
  destruct (np_gt _ _); [eexists _, _; reflexivity |].
  destruct (np_lt _ _); eexists _, _; reflexivity.
Qed.

Lemma next_open_in_session (self : Trader) (now : datetime) (w : World) :
  in_session self now = true ->
  next_open_of self now w = trade_cycle self now w.
Proof.
  unfold in_session, next_open_of. intros H.
  apply andb_true_iff in H as [H H3]. apply andb_true_iff in H as [H1 H2].
  rewrite H1. apply negb_true_iff in H2. apply negb_true_iff in H3.
  rewrite H2, H3. reflexivity.
Qed.

(** Outside the trading branch the pass only picks a wake-up time. *)
Lemma next_open_of_cases (self : Trader) (now : datetime) (w : World) :
  (exists d, next_open_of self now w = (Returned d, w)) \/
  next_open_of self now w = trade_cycle self now w.
Proof.
  unfold next_open_of.
  destruct ((weekday now <? 5) || quick_test self);
    [| left; eexists; reflexivity].
  destruct (time_gtb _ _ && _); [left; eexists; reflexivity |].
  destruct (time_ltb _ _ && _); [left; eexists; reflexivity |].
  right. reflexivity.
Qed.

(** The trading branch is: decide on the two windows, act, come back in
    two days. *)
Lemma trade_cycle_unfold (self : Trader) (now : datetime) (w : World)
    (short long : list Q) (side : option OrderSide) (multiplier : Q) :
  short_window self now w = Returned short ->
  long_window self now w = Returned long ->
  make_decision short long = Returned (side, multiplier) ->
  trade_cycle self now w =
  match act_on_decision self side multiplier w with
  | (Returned _, w') => (Returned (plus_days now 2), w')
  | (Raised e, w') => (Raised e, w')
  end.
Proof.
  intros Hs Hl Hd.
  unfold trade_cycle, bind, _fetch_stock_bars, lift_result, ret.
  fold (short_window self now w). fold (long_window self now w).
  rewrite Hs, Hl, Hd. cbn [fst snd].
  destruct (act_on_decision self side multiplier w) as [[[] | e] w'];
    reflexivity.
Qed.

(** A window that cannot be read ends the trading branch before any
    decision. *)
Lemma trade_cycle_cases (self : Trader) (now : datetime) (w : World) :
  (exists e, trade_cycle self now w = (Raised e, w)) \/
  (exists short long side multiplier,
     short_window self now w = Returned short /\
     long_window self now w = Returned long /\
     make_decision short long = Returned (Some side, multiplier)).
Proof.
  destruct (short_window self now w) as [short | e] eqn:Hs.
  - destruct (long_window self now w) as [long | e] eqn:Hl.
    + right. destruct (make_decision_total short long) as [side [m Hd]].
      exists short, long, side, m. repeat split. exact Hd.
    + left. exists e.
      unfold trade_cycle, bind, _fetch_stock_bars, lift_result, ret.
      fold (short_window self now w). fold (long_window self now w).
      rewrite Hs, Hl. reflexivity.
  - left. exists e.
    unfold trade_cycle, bind, _fetch_stock_bars, lift_result, ret.
    fold (short_window self now w). rewrite Hs. reflexivity.
Qed.

(** The final sleep of a pass sends no order. *)
Lemma submitted_after_sleep (seconds : Q) (w : World) :
  submitted (trace (do_sleep seconds w)) = submitted (trace w).
Proof. cbn. rewrite submitted_app. cbn. apply app_nil_r. Qed.

(** A pass is its choice of wake-up time followed by the sleep. *)
Lemma run_iteration_unfold (self : Trader) (w : World) :
  run_iteration self w =
  match next_open_of self (clock w) w with
  | (Returned next_open, w') =>
      (Returned tt,
       do_sleep
         (if negb (quick_test self)
          then total_seconds_between next_open (clock w) else 60%Q) w')
  | (Raised e, w') => (Raised e, w')
  end.
Proof.
  unfold run_iteration, bind, datetime_now, sleep.
  destruct (next_open_of self (clock w) w) as [[d | e] w']; reflexivity.
Qed.

(** Discarding the value of a call does not change what it did. *)
Lemma discard_value_world {A : Type} (c : M A) (w : World) :
  snd ((c ;;; ret tt) w) = snd (c w).
Proof. unfold bind, ret. destruct (c w) as [[a | e] w']; reflexivity. Qed.

(** What the order step sends, by decision. *)
Lemma act_on_decision_buy (self : Trader) (multiplier : Q) (w : World) :
  ~ (account_cash w * multiplier == 0)%Q ->
  submitted (trace (snd (act_on_decision self (Some BUY) multiplier w)))
  = submitted (trace w)
    ++ [mk_request (symbol self) BUY MARKET DAY None
          (Some (account_cash w * multiplier)%Q)].
Proof.
  intros Hnz. pose proof (nonzero_truthy _ Hnz) as Ht.
  unfold act_on_decision. unfold bind at 1. cbn [get_account_cash].
  rewrite discard_value_world.
  rewrite trader_place_order_submitted by (rewrite Ht; reflexivity).
  unfold request_for. rewrite Ht. reflexivity.
Qed.



(** What a pass in session sends is what its order step sends. *)
Lemma run_iteration_submitted (self : Trader) (w : World)
    (short long : list Q) (side : option OrderSide) (multiplier : Q) :
  in_session self (clock w) = true ->
  short_window self (clock w) w = Returned short ->
  long_window self (clock w) w = Returned long ->
  make_decision short long = Returned (side, multiplier) ->
  submitted (trace (snd (run_iteration self w)))
  = submitted (trace (snd (act_on_decision self side multiplier w))).
Proof.
  intros Hin Hs Hl Hd.
  rewrite run_iteration_unfold, next_open_in_session by exact Hin.
  rewrite (trade_cycle_unfold self (clock w) w short long side multiplier
             Hs Hl Hd).
  destruct (act_on_decision self side multiplier w) as [[[] | e] w'];
    cbn [snd]; [apply submitted_after_sleep | reflexivity].
Qed.






(** ** A rejected submission *)


(** The order step, by decision. *)
Lemma act_on_decision_buy_unfold (self : Trader) (multiplier : Q) (w : World) :
  act_on_decision self (Some BUY) multiplier w =
  (_place_order self None (Some (account_cash w * multiplier)%Q) BUY ;;; ret tt)
    w.
Proof. reflexivity. Qed.

Lemma act_on_decision_sell_unfold (self : Trader) (multiplier : Q)
    (w : World) :
  act_on_decision self (Some SELL) multiplier w =
  match held_positions self w with
  | position :: _ =>
      (_place_order self (Some (pos_qty position * multiplier)%Q) None SELL ;;;
       ret tt) w
  | [] => (Returned tt, w)
  end.
Proof.
  unfold act_on_decision, held_positions. unfold bind at 1, get_all_positions.
  destruct (filter _ (all_positions w)); reflexivity.
Qed.






(** ** Further facts about the executor and the clock *)



(** The loop sleeps before each poll, so it sleeps once per status it
    fetches: when the submitted order is pending and the fill only shows at
    the third poll, there are three sleeps. *)
Lemma wait_for_fill_third_poll_filled (order : Order) (remaining_time : Z)
    (w : World) :
  120 < remaining_time ->
  order_status order <> "filled" ->
  poll_feed w (polls w) <> "filled" ->
  poll_feed w (S (polls w)) <> "filled" ->
  poll_feed w (S (S (polls w))) = "filled" ->
  let polled := wait_for_fill order remaining_time w in
  fst polled = mk_order (order_id order) "filled" /\
  trace (snd polled) =
    trace w ++ [EvSleep 60; EvGetOrderById (order_id order);
                EvSleep 60; EvGetOrderById (order_id order);
                EvSleep 60; EvGetOrderById (order_id order)].
Proof.
  intros Hr H0 H1 H2 H3 polled. subst polled.
  rewrite wait_for_fill_step by (auto using not_filled_true || lia).
  rewrite wait_for_fill_step
    by ((apply not_filled_true; cbn; exact H1) || lia).
  rewrite wait_for_fill_step
    by ((apply not_filled_true; cbn; exact H2) || lia).
  rewrite wait_for_fill_filled by (cbn; rewrite H3; reflexivity).
  cbn. rewrite H3. split; [reflexivity |].
  rewrite <- !app_assoc. reflexivity.
Qed.

(** Day-by-day skipping from a Saturday evening: [run] of trader.py looks
    again on Sunday 17:00 and on Monday 17:00, finds Monday's session over,
    and first wakes before a session on Tuesday at 09:30. *)
Lemma saturday_evening_reaches_tuesday :
  trace
    (snd (run (sample_trader 300) 3
            (sample_world (mk_datetime 738891 17 0 0 0) 1000%Q [] no_bars
               (Returned pending_order) always_pending)))
  = [EvSleep (86400000000 # 1000000); EvSleep (86400000000 # 1000000);
     EvSleep (59400000000 # 1000000)] /\
  clock
    (snd (run (sample_trader 300) 3
            (sample_world (mk_datetime 738891 17 0 0 0) 1000%Q [] no_bars
               (Returned pending_order) always_pending)))
  = mk_datetime 738894 9 30 0 0.
Proof. vm_compute. split; reflexivity. Qed.

(** * Beyond the claims *)

(** ** Closing prices in chronological order *)

Lemma insert_by_timestamp_perm (b : Bar) (l : list Bar) :
  Permutation (insert_by_timestamp b l) (b :: l).
Proof.
  induction l as [| b' rest IH]; simpl; [reflexivity |].
  destruct (bar_timestamp b <=? bar_timestamp b'); [reflexivity |].
  rewrite IH. apply perm_swap.
Qed.

Lemma sorted_by_timestamp_perm (l : list Bar) :
  Permutation (sorted_by_timestamp l) l.
Proof.
  induction l as [| b rest IH]; simpl; [reflexivity |].
  rewrite insert_by_timestamp_perm. apply perm_skip. exact IH.
Qed.

Lemma insert_by_timestamp_sorted (b : Bar) (l : list Bar) :
  StronglySorted chronological l ->
  StronglySorted chronological (insert_by_timestamp b l).
Proof.
  induction 1 as [| b' rest Hrest IH Hall]; simpl.
  - constructor; constructor.
  - destruct (bar_timestamp b <=? bar_timestamp b') eqn:Hle.
    + apply Z.leb_le in Hle. constructor.
      * constructor; assumption.
      * constructor; [exact Hle |].
        eapply Forall_impl; [| exact Hall].
        intros c Hc. unfold chronological in *. lia.
    + apply Z.leb_gt in Hle. constructor; [exact IH |].
      eapply Permutation_Forall.
      * symmetry. apply insert_by_timestamp_perm.
      * constructor; [unfold chronological; lia | exact Hall].
Qed.

Lemma sorted_by_timestamp_sorted (l : list Bar) :
  StronglySorted chronological (sorted_by_timestamp l).
Proof.
  induction l as [| b rest IH]; simpl; [constructor |].
  apply insert_by_timestamp_sorted. exact IH.
Qed.

(** X1. When the bar set has an entry for the symbol, the closing prices
    returned are those of the entry's bars put in non-decreasing order of
    timestamp: every bar is kept exactly once, so there are as many prices
    as bars. *)
Theorem closing_prices_chronological (self : Trader) (bars : BarSet)
    (data : list Bar) :
  dict_get (symbol self) bars = Some data ->
  exists ordered,
    _fetch_stock_closing_prices self bars = Returned (map bar_close ordered) /\
    Permutation ordered data /\
    StronglySorted chronological ordered /\
    List.length (map bar_close ordered) = List.length data.
Proof.
  intros Hdata. exists (sorted_by_timestamp data).
  unfold _fetch_stock_closing_prices. rewrite Hdata.
  split; [reflexivity |]. split; [apply sorted_by_timestamp_perm |].
  split; [apply sorted_by_timestamp_sorted |].
  rewrite length_map. apply Permutation_length, sorted_by_timestamp_perm.
Qed.

Lemma closing_prices_chronological_witness :
  exists ordered,
    _fetch_stock_closing_prices (sample_trader 300)
      [("VOO", [mk_bar 3 12%Q; mk_bar 1 10%Q; mk_bar 2 11%Q])]
    = Returned (map bar_close ordered) /\
    Permutation ordered [mk_bar 3 12%Q; mk_bar 1 10%Q; mk_bar 2 11%Q] /\
    StronglySorted chronological ordered.
Proof.
  destruct (closing_prices_chronological (sample_trader 300)
              [("VOO", [mk_bar 3 12%Q; mk_bar 1 10%Q; mk_bar 2 11%Q])]
              [mk_bar 3 12%Q; mk_bar 1 10%Q; mk_bar 2 11%Q] eq_refl)
    as [ordered [H1 [H2 [H3 _]]]].
  exists ordered. repeat split; assumption.
Defined.

Lemma insert_by_timestamp_filter (t : Z) (b : Bar) (l : list Bar) :
  StronglySorted chronological l ->
  filter (fun c => bar_timestamp c =? t) (insert_by_timestamp b l)
  = filter (fun c => bar_timestamp c =? t) (b :: l).
Proof.
  induction 1 as [| b' rest Hrest IH Hall]; [reflexivity |].
  cbn [insert_by_timestamp].
  destruct (bar_timestamp b <=? bar_timestamp b') eqn:Hle; [reflexivity |].
  apply Z.leb_gt in Hle.
  cbn [filter] in *. rewrite IH.
  destruct (bar_timestamp b' =? t) eqn:Hb'; [| reflexivity].
  destruct (bar_timestamp b =? t) eqn:Hb; [| reflexivity].
  apply Z.eqb_eq in Hb', Hb. lia.
Qed.

Lemma insert_by_timestamp_front (b : Bar) (l : list Bar) :
  Forall (chronological b) l -> insert_by_timestamp b l = b :: l.
Proof.
  intros Hall. destruct l as [| b' rest]; [reflexivity |].
  inversion Hall as [| ? ? Hb' _]; subst. simpl.
  unfold chronological in Hb'. apply Z.leb_le in Hb'. rewrite Hb'.
  reflexivity.
Qed.

(** X2. The ordering of the bars is stable: bars that carry the same
    timestamp keep the order in which the data service gave them, and bars
    that arrive in chronological order are returned as they are. *)
Theorem closing_prices_stable (data : list Bar) :
  (forall t,
     filter (fun c => bar_timestamp c =? t) (sorted_by_timestamp data)
     = filter (fun c => bar_timestamp c =? t) data) /\
  (StronglySorted chronological data -> sorted_by_timestamp data = data).
Proof.
  split.
  - intros t. induction data as [| b rest IH]; [reflexivity |].
    cbn [sorted_by_timestamp fold_right].
    fold (sorted_by_timestamp rest).
    rewrite insert_by_timestamp_filter by apply sorted_by_timestamp_sorted.
    cbn [filter]. rewrite IH. reflexivity.
  - induction 1 as [| b rest Hrest IH Hall]; [reflexivity |].
    cbn [sorted_by_timestamp fold_right].
    fold (sorted_by_timestamp rest). rewrite IH.
    apply insert_by_timestamp_front. exact Hall.
Qed.

Lemma closing_prices_stable_witness :
  sorted_by_timestamp [mk_bar 1 10%Q; mk_bar 2 11%Q; mk_bar 2 12%Q]
  = [mk_bar 1 10%Q; mk_bar 2 11%Q; mk_bar 2 12%Q].
Proof.
  destruct (closing_prices_stable
              [mk_bar 1 10%Q; mk_bar 2 11%Q; mk_bar 2 12%Q]) as [_ Hsame].
  apply Hsame.
  repeat (constructor; try (unfold chronological; simpl; lia)).
Defined.

(** ** The decision and the order of the prices *)





(** ** The shape of a monitoring run *)

Lemma rounds_snoc (id : nat) (k : nat) :
  [EvSleep 60; EvGetOrderById id] ++ rounds id k = rounds id (S k).
Proof. reflexivity. Qed.

(** What the poll loop does, for every order, allowance and world: some
    number [k] of sleep-and-poll rounds on the order it was given; none
    when there is no time, and never a round that starts after the
    allowance is used up; it stops on an open order only when the allowance
    is used up. *)
Lemma wait_for_fill_rounds (order : Order) (remaining_time : Z) (w : World) :
  exists k,
    trace (snd (wait_for_fill order remaining_time w))
      = trace w ++ rounds (order_id order) k /\
    polls (snd (wait_for_fill order remaining_time w)) = (polls w + k)%nat /\
    (remaining_time <= 0 -> k = 0%nat) /\
    (0 < remaining_time -> Z.of_nat k * 60 < remaining_time + 60) /\
    (not_filled (fst (wait_for_fill order remaining_time w)) = true ->
     remaining_time <= Z.of_nat k * 60).
Proof.
  funelim (wait_for_fill order remaining_time w).
  - exists 0%nat. cbn [fst snd rounds]. rewrite app_nil_r, Nat.add_0_r.
    repeat split; try lia. intros Hopen. congruence.
  - match goal with
    | IH : exists k, _ |- _ => destruct IH as [k [Ht [Hp [Hz [Hb Hu]]]]]
    end.
    exists (S k). unfold wait_step in *. cbn [fst snd] in *.
    repeat split.
    + rewrite Ht. unfold do_get_order_by_id, do_sleep. cbn.
      rewrite <- !app_assoc. reflexivity.
    + rewrite Hp. unfold do_get_order_by_id, do_sleep. cbn. lia.
    + lia.
    + intros _. destruct (Z_le_gt_dec (remaining_time - 60) 0) as [Hle | Hgt].
      * rewrite (Hz Hle). lia.
      * specialize (Hb ltac:(lia)). lia.
    + intros Hopen. specialize (Hu Hopen). lia.
  - exists 0%nat. cbn [fst snd rounds]. rewrite app_nil_r, Nat.add_0_r.
    repeat split; try lia.
Qed.

Lemma not_filled_false (order : Order) :
  not_filled order = false -> order_status order = "filled".
Proof.
  unfold not_filled. intros H. apply negb_false_iff in H.
  apply String.eqb_eq. exact H.
Qed.


(** The monitor of main.py around its loop. *)
Lemma main_monitor_shape (cfg : Config) (order : Order) (sym : string)
    (amount : option Q) (trade_type : string) (side : OrderSide) (w : World) :
  exists k handle w',
    Main.monitor_order cfg order sym amount trade_type side w
      = (Returned handle, w') /\
    trace w' =
      trace w ++ rounds (order_id order) k
      ++ (match handle with
          | Some _ => []
          | None => [EvCancelOrderById (order_id order)]
          end) /\
    polls w' = (polls w + k)%nat /\
    (MAX_WAIT cfg <= 0 -> k = 0%nat) /\
    (0 < MAX_WAIT cfg -> Z.of_nat k * 60 < MAX_WAIT cfg + 60) /\
    (handle = None -> MAX_WAIT cfg <= Z.of_nat k * 60) /\
    (forall o, handle = Some o -> o = mk_order (order_id order) "filled").
Proof.
  destruct (wait_for_fill_rounds order (MAX_WAIT cfg) w)
    as [k [Ht [Hp [Hz [Hb Hu]]]]].
  pose proof (wait_for_fill_order_id order (MAX_WAIT cfg) w) as Hid.
  rewrite main_monitor_unfold. cbv zeta.
  destruct (wait_for_fill order (MAX_WAIT cfg) w) as [o w1].
  cbn [fst snd] in *. exists k.
  destruct (not_filled o) eqn:Hopen.
  - exists None. eexists. split; [reflexivity |].
    cbn. rewrite Ht, Hid, <- app_assoc. repeat split; auto.
    intros o' Ho'. discriminate.
  - exists (Some o). eexists. split; [reflexivity |].
    cbn. rewrite Ht, app_nil_r. repeat split; auto; try discriminate.
    intros o' Ho'. injection Ho' as <-.
    apply not_filled_false in Hopen. destruct o as [id st]. cbn in *.
    subst. reflexivity.
Qed.









(** ** What a placed order leaves in the ledger *)






(** ** The orders a whole run sends *)

Lemma proper_request_buy (self : Trader) (notional : Q) :
  truthy (Some notional) = true ->
  proper_request self
    (request_for (symbol self) None (Some notional) BUY) = true.
Proof.
  intros Ht. unfold request_for. rewrite Ht. unfold proper_request.
  cbn. rewrite String.eqb_refl. exact Ht.
Qed.

Lemma proper_request_sell (self : Trader) (qty : Q) :
  truthy (Some qty) = true ->
  proper_request self (request_for (symbol self) (Some qty) None SELL) = true.
Proof.
  intros Ht. unfold request_for. cbn [truthy]. unfold proper_request.
  cbn. rewrite String.eqb_refl. exact Ht.
Qed.

(** What one call of [_place_order] from the order step sends. *)
Lemma place_order_requests (self : Trader) (qty notional : option Q)
    (side : OrderSide) (w : World) :
  (truthy notional || truthy qty = true ->
   proper_request self (request_for (symbol self) qty notional side) = true) ->
  exists l,
    submitted (trace (snd ((_place_order self qty notional side ;;; ret tt) w)))
      = submitted (trace w) ++ l /\
    (List.length l <= 1)%nat /\
    forallb (proper_request self) l = true.
Proof.
  intros Hproper. rewrite discard_value_world.
  destruct (truthy notional || truthy qty) eqn:Hany.
  - exists [request_for (symbol self) qty notional side].
    split; [apply trader_place_order_submitted; exact Hany |].
    split; [simpl; lia |]. simpl. rewrite (Hproper eq_refl). reflexivity.
  - apply orb_false_iff in Hany as [Hn Hq].
    rewrite (trader_place_order_invalid self qty notional side w Hn Hq).
    exists []. cbn [snd]. rewrite app_nil_r. repeat split. simpl; lia.
Qed.

Lemma act_on_decision_requests (self : Trader) (side : option OrderSide)
    (multiplier : Q) (w : World) :
  exists l,
    submitted (trace (snd (act_on_decision self side multiplier w)))
      = submitted (trace w) ++ l /\
    (List.length l <= 1)%nat /\
    forallb (proper_request self) l = true.
Proof.
  destruct side as [[|] |].
  - rewrite act_on_decision_buy_unfold. apply place_order_requests.
    intros Hany. apply proper_request_buy.
    rewrite orb_false_r in Hany. exact Hany.
  - rewrite act_on_decision_sell_unfold.
    destruct (held_positions self w) as [| p rest].
    + exists []. cbn [snd]. rewrite app_nil_r. repeat split. simpl; lia.
    + apply place_order_requests. intros Hany. apply proper_request_sell.
      rewrite orb_false_l in Hany. exact Hany.
  - exists []. cbn. rewrite app_nil_r. repeat split. lia.
Qed.

Lemma run_iteration_requests (self : Trader) (w : World) :
  exists l,
    submitted (trace (snd (run_iteration self w))) = submitted (trace w) ++ l /\
    (List.length l <= 1)%nat /\
    forallb (proper_request self) l = true.
Proof.
  rewrite run_iteration_unfold.
  destruct (next_open_of_cases self (clock w) w) as [[d Hd] | Hd]; rewrite Hd.
  - exists []. cbn [snd]. rewrite submitted_after_sleep, app_nil_r.
    repeat split. simpl; lia.
  - destruct (trade_cycle_cases self (clock w) w)
      as [[e He] | [short [long [side [m [Hs [Hl Hdec]]]]]]].
    + rewrite He. exists []. cbn [snd]. rewrite app_nil_r.
      repeat split. simpl; lia.
    + rewrite (trade_cycle_unfold self (clock w) w _ _ _ _ Hs Hl Hdec).
      destruct (act_on_decision_requests self (Some side) m w)
        as [l [Hsent [Hlen Hall]]].
      exists l.
      destruct (act_on_decision self (Some side) m w) as [[[] | e] w1];
        cbn [snd] in *; rewrite ?submitted_after_sleep;
        repeat split; assumption.
Qed.

(** X10. Over any number of passes, [run] of trader.py sends at most one
    request per pass, and every request it sends is for its own symbol and
    carries exactly one size: a BUY sized by a notional amount other than
    zero, or a SELL sized by a quantity other than zero. *)
Theorem run_sends_only_proper_orders (self : Trader) (passes : nat)
    (w : World) :
  exists l,
    submitted (trace (snd (run self passes w))) = submitted (trace w) ++ l /\
    (List.length l <= passes)%nat /\
    forallb (proper_request self) l = true.
Proof.
  revert w. induction passes as [| n IH]; intros w.
  - exists []. cbn. rewrite app_nil_r. repeat split; auto.
  - destruct (run_iteration_requests self w) as [l1 [H1 [Hlen1 Hall1]]].
    cbn [run]. unfold bind.
    destruct (run_iteration self w) as [[[] | e] w1]; cbn [snd] in *.
    + destruct (IH w1) as [l2 [H2 [Hlen2 Hall2]]].
      exists (l1 ++ l2). rewrite H2, H1, app_assoc.
      split; [reflexivity |]. split; [rewrite length_app; lia |].
      rewrite forallb_app, Hall1, Hall2. reflexivity.
    + exists l1. split; [exact H1 |]. split; [lia | exact Hall1].
Qed.

(** ** Passes of the scheduler loop, in and out of session *)

Ltac compare_fields :=
  unfold time_gtb, time_ltb, time_leb, time_gtb, time_compare, lex,
    time_of, time_hm in *;
  cbn [t_hour t_minute t_second t_microsecond] in *;
  repeat match goal with
         | H : context [?x ?= ?y] |- _ =>
             destruct (Z.compare_spec x y); try discriminate
         | |- context [?x ?= ?y] =>
             destruct (Z.compare_spec x y); try discriminate
         end.

Lemma time_gtb_16 (d : datetime) :
  time_gtb (time_of d) (time_hm 16 0) = true ->
  well_formed d ->
  57600 <= 3600 * hour d + 60 * minute d + second d <= 86399.
Proof.
  intros H [Hh [Hm [Hs Hu]]]. compare_fields; lia.
Qed.

Lemma time_ltb_9_30 (d : datetime) :
  time_ltb (time_of d) (time_hm 9 30) = true ->
  well_formed d ->
  0 <= 3600 * hour d + 60 * minute d + second d <= 34199.
Proof.
  intros H [Hh [Hm [Hs Hu]]]. compare_fields; lia.
Qed.

Lemma in_session_false_quick_test (self : Trader) (now : datetime) :
  in_session self now = false -> quick_test self = false.
Proof.
  unfold in_session. destruct (quick_test self); [| reflexivity].
  rewrite orb_true_r, !andb_false_r. discriminate.
Qed.

(** X11. A pass of [run] that falls outside the session does nothing but
    sleep: it sends no request, polls nothing and writes no file.  On a
    clock reading with its fields in range the sleep is positive and at most
    one day (exactly one day on a weekend day). *)
Theorem pass_outside_session_only_sleeps (self : Trader) (w : World) :
  in_session self (clock w) = false ->
  well_formed (clock w) ->
  exists seconds,
    run_iteration self w = (Returned tt, do_sleep seconds w) /\
    (0 < seconds)%Q /\ (seconds <= 86400)%Q /\
    (5 <= weekday (clock w) -> (seconds == 86400)%Q).
Proof.
  intros Hout Hwf.
  pose proof (in_session_false_quick_test self (clock w) Hout) as Hq.
  rewrite run_iteration_unfold. unfold next_open_of.
  unfold in_session in Hout. rewrite Hq in *.
  rewrite orb_false_r, !andb_true_r in *. cbn [negb].
  destruct (weekday (clock w) <? 5) eqn:Hday.
  - rewrite andb_true_l in Hout. apply Z.ltb_lt in Hday.
    destruct (time_gtb (time_of (clock w)) (time_hm 16 0)) eqn:Hgt.
    + pose proof (time_gtb_16 (clock w) Hgt Hwf) as Hb.
      eexists. split; [reflexivity |].
      unfold total_seconds_between, to_microseconds, replace_hms, plus_days.
      cbn [ordinal hour minute second microsecond].
      unfold Qlt, Qle, Qeq. cbn [Qnum Qden]. repeat split; try lia.
    + cbn [negb] in Hout. rewrite andb_true_l in Hout.
      apply negb_false_iff in Hout. rewrite Hout.
      pose proof (time_ltb_9_30 (clock w) Hout Hwf) as Hb.
      eexists. split; [reflexivity |].
      unfold total_seconds_between, to_microseconds, replace_hms.
      cbn [ordinal hour minute second microsecond].
      unfold Qlt, Qle, Qeq. cbn [Qnum Qden]. repeat split; try lia.
  - apply Z.ltb_ge in Hday.
    eexists. split; [reflexivity |].
    unfold total_seconds_between, to_microseconds, plus_days.
    cbn [ordinal hour minute second microsecond].
    unfold Qlt, Qle, Qeq. cbn [Qnum Qden]. repeat split; try lia.
Qed.

Lemma pass_outside_session_only_sleeps_witness :
  exists seconds,
    run_iteration (sample_trader 300)
      (sample_world friday_17h 1000%Q [] rising_bars (Returned pending_order)
         always_pending)
    = (Returned tt,
       do_sleep seconds
         (sample_world friday_17h 1000%Q [] rising_bars
            (Returned pending_order) always_pending)) /\
    (0 < seconds)%Q /\ (seconds <= 86400)%Q.
Proof.
  destruct (pass_outside_session_only_sleeps (sample_trader 300)
              (sample_world friday_17h 1000%Q [] rising_bars
                 (Returned pending_order) always_pending) eq_refl)
    as [seconds [Hrun [Hpos [Hle _]]]].
  - unfold well_formed. cbn. lia.
  - exists seconds. repeat split; assumption.
Defined.

Lemma two_days_in_seconds (now : datetime) :
  total_seconds_between (plus_days now 2) now = 172800000000 # 1000000.
Proof.
  unfold total_seconds_between. f_equal.
  unfold to_microseconds, plus_days.
  cbn [ordinal hour minute second microsecond]. lia.
Qed.

(** X12. A pass of [run] that trades (quick-test mode off) and returns ends
    with a sleep of exactly two days, 172800 seconds, counted from the
    clock reading taken at the start of the pass: the time spent monitoring
    the order is not taken off the sleep. *)
Theorem trading_pass_sleeps_two_days (self : Trader) (w w' : World) :
  quick_test self = false ->
  in_session self (clock w) = true ->
  run_iteration self w = (Returned tt, w') ->
  exists traded,
    trade_cycle self (clock w) w = (Returned (plus_days (clock w) 2), traded) /\
    w' = do_sleep (172800000000 # 1000000) traded.
Proof.
  intros Hq Hin Hrun.
  rewrite run_iteration_unfold, next_open_in_session in Hrun by exact Hin.
  rewrite Hq in Hrun. cbn [negb] in Hrun.
  destruct (trade_cycle_cases self (clock w) w)
    as [[e He] | [short [long [side [m [Hs [Hl Hdec]]]]]]].
  - rewrite He in Hrun. discriminate.
  - rewrite (trade_cycle_unfold self (clock w) w _ _ _ _ Hs Hl Hdec) in *.
    destruct (act_on_decision self (Some side) m w) as [[[] | e] w1];
      [| discriminate].
    exists w1. split; [reflexivity |].
    rewrite two_days_in_seconds in Hrun. congruence.
Qed.

Lemma trading_pass_sleeps_two_days_witness :
  exists traded,
    snd (run_iteration (sample_trader 300)
           (sample_world monday_10h 1000%Q [] falling_bars
              (Returned pending_order) always_pending))
    = do_sleep (172800000000 # 1000000) traded.
Proof.
  destruct (trading_pass_sleeps_two_days (sample_trader 300)
              (sample_world monday_10h 1000%Q [] falling_bars
                 (Returned pending_order) always_pending)
              (snd (run_iteration (sample_trader 300)
                      (sample_world monday_10h 1000%Q [] falling_bars
                         (Returned pending_order) always_pending)))
              eq_refl eq_refl eq_refl)
    as [traded [_ Hw]].
  exists traded. exact Hw.
Defined.

(** X13. In quick-test mode every pass of [run] takes the trading branch,
    whatever the day and the time, and a pass that returns ends with a
    sleep of exactly 60 seconds. *)
Theorem quick_test_trades_at_any_time (self : Trader) (w w' : World) :
  quick_test self = true ->
  in_session self (clock w) = true /\
  next_open_of self (clock w) w = trade_cycle self (clock w) w /\
  (run_iteration self w = (Returned tt, w') ->
   exists traded,
     trade_cycle self (clock w) w
       = (Returned (plus_days (clock w) 2), traded) /\
     w' = do_sleep 60 traded).
Proof.
  intros Hq.
  assert (Hin : in_session self (clock w) = true).
  { unfold in_session. rewrite Hq, orb_true_r, !andb_false_r. reflexivity. }
  split; [exact Hin |]. split; [apply next_open_in_session; exact Hin |].
  intros Hrun.
  rewrite run_iteration_unfold, next_open_in_session in Hrun by exact Hin.
  rewrite Hq in Hrun. cbn [negb] in Hrun.
  destruct (trade_cycle_cases self (clock w) w)
    as [[e He] | [short [long [side [m [Hs [Hl Hdec]]]]]]].
  - rewrite He in Hrun. discriminate.
  - rewrite (trade_cycle_unfold self (clock w) w _ _ _ _ Hs Hl Hdec) in *.
    destruct (act_on_decision self (Some side) m w) as [[[] | e] w1];
      [| discriminate].
    exists w1. split; [reflexivity | congruence].
Qed.

Lemma quick_test_trades_at_any_time_witness :
  in_session (mk_trader "VOO" 300 true) saturday_10h = true /\
  submitted
    (trace
       (snd (run_iteration (mk_trader "VOO" 300 true)
               (sample_world saturday_10h 1000%Q [] rising_bars
                  (Raised APIError) always_pending))))
  = [mk_request "VOO" BUY MARKET DAY None (Some (1000 * 0.75)%Q)].
Proof.
  destruct (quick_test_trades_at_any_time (mk_trader "VOO" 300 true)
              (sample_world saturday_10h 1000%Q [] rising_bars
                 (Raised APIError) always_pending)
              (sample_world saturday_10h 1000%Q [] rising_bars
                 (Raised APIError) always_pending)
              eq_refl)
    as [Hin [Hnext _]].
  split; [exact Hin |].
  rewrite run_iteration_unfold, Hnext. reflexivity.
Defined.

(** X14. When a bar set that the data service returns has no entry for
    the symbol, a pass in session raises [KeyError] for the symbol before
    any decision: [run] ends there, having sent nothing, written nothing and
    slept not at all. *)
Theorem missing_symbol_ends_run (self : Trader) (w : World) (passes : nat) :
  in_session self (clock w) = true ->
  dict_get (symbol self)
    (stock_bars w (symbol self) (plus_days (clock w) (-6))
       (plus_days (clock w) (-1)) 5%nat) = None \/
  dict_get (symbol self)
    (stock_bars w (symbol self) (plus_days (clock w) (-21))
       (plus_days (clock w) (-1)) 20%nat) = None ->
  run self (S passes) w = (Raised (KeyError (symbol self)), w).
Proof.
  intros Hin Hmissing.
  assert (Hcycle : trade_cycle self (clock w) w
                   = (Raised (KeyError (symbol self)), w)).
  { unfold trade_cycle, bind, _fetch_stock_bars, lift_result, ret.
    unfold _fetch_stock_closing_prices.
    destruct Hmissing as [H5 | H20].
    - rewrite H5. reflexivity.
    - destruct (dict_get (symbol self)
                  (stock_bars w (symbol self) (plus_days (clock w) (-6))
                     (plus_days (clock w) (-1)) 5%nat));
        [rewrite H20 |]; reflexivity. }
  cbn [run]. unfold bind.
  rewrite run_iteration_unfold, next_open_in_session, Hcycle by exact Hin.
  reflexivity.
Qed.

Lemma missing_symbol_ends_run_witness :
  run (sample_trader 300) 3
    (mk_world monday_10h (fun d => d) 1000%Q [] (fun _ => Returned None)
       (fun _ _ _ _ => []) (fun _ => Returned pending_order) always_pending
       0 true [] [])
  = (Raised (KeyError "VOO"),
     mk_world monday_10h (fun d => d) 1000%Q [] (fun _ => Returned None)
       (fun _ _ _ _ => []) (fun _ => Returned pending_order) always_pending
       0 true [] []).
Proof.
  apply (missing_symbol_ends_run (sample_trader 300)
           (mk_world monday_10h (fun d => d) 1000%Q [] (fun _ => Returned None)
              (fun _ _ _ _ => []) (fun _ => Returned pending_order)
              always_pending 0 true [] []) 2).
  - reflexivity.
  - left. reflexivity.
Defined.

(** X15. When a window comes back without any price (the data service has
    an entry for the symbol but no bars), the pass does not skip the cycle:
    the decision is the tie, BUY with multiplier 0.50, and with cash other
    than zero the pass sends a BUY for half the cash. *)
Theorem empty_window_buys_half_the_cash (self : Trader) (w : World)
    (short long : list Q) :
  in_session self (clock w) = true ->
  short_window self (clock w) w = Returned short ->
  long_window self (clock w) w = Returned long ->
  short = [] \/ long = [] ->
  ~ (account_cash w * 0.50 == 0)%Q ->
  submitted (trace (snd (run_iteration self w)))
  = submitted (trace w)
    ++ [mk_request (symbol self) BUY MARKET DAY None
          (Some (account_cash w * 0.50)%Q)].
Proof.
  intros Hin Hs Hl Hempty Hcash.
  assert (Hdec : make_decision short long = Returned (Some BUY, 0.50%Q)).
  { unfold make_decision. destruct Hempty as [-> | ->]; simpl.
    - reflexivity.
    - destruct (np_mean short); reflexivity. }
  rewrite (run_iteration_submitted self w short long _ _ Hin Hs Hl Hdec).
  apply act_on_decision_buy. exact Hcash.
Qed.

Lemma empty_window_buys_half_the_cash_witness :
  submitted
    (trace
       (snd (run_iteration (sample_trader 300)
               (sample_world monday_10h 1000%Q [] no_bars
                  (Returned pending_order) always_pending))))
  = [mk_request "VOO" BUY MARKET DAY None (Some (1000 * 0.50)%Q)].
Proof.
  apply (empty_window_buys_half_the_cash (sample_trader 300)
           (sample_world monday_10h 1000%Q [] no_bars
              (Returned pending_order) always_pending) [] []).
  - reflexivity.
  - reflexivity.
  - reflexivity.
  - left. reflexivity.
  - discriminate.
Defined.

(** ** The loop of main.py *)

Lemma lex_opp (c1 c2 : comparison) :
  lex (CompOpp c1) (CompOpp c2) = CompOpp (lex c1 c2).
Proof. destruct c1; reflexivity. Qed.

Lemma time_compare_antisym (a b : time) :
  time_compare b a = CompOpp (time_compare a b).
Proof.
  unfold time_compare.
  rewrite (Z.compare_antisym (t_hour a)), (Z.compare_antisym (t_minute a)),
    (Z.compare_antisym (t_second a)), (Z.compare_antisym (t_microsecond a)).
  rewrite !lex_opp. reflexivity.
Qed.

Lemma time_gtb_ltb (a b : time) : time_gtb b a = time_ltb a b.
Proof.
  unfold time_gtb, time_ltb. rewrite time_compare_antisym.
  destruct (time_compare a b); reflexivity.
Qed.

Lemma main_iteration_in_session (cfg : Config) (sym : string) (w : World) :
  main_in_session (clock w) = true ->
  Main.run_trade_loop_iteration cfg sym w
  = Main.execute_daily_trade_strategy cfg sym w.
Proof.
  unfold main_in_session, Main.run_trade_loop_iteration, bind, datetime_now.
  intros H. apply andb_true_iff in H as [Hday Hsession].
  rewrite Hday, Hsession. reflexivity.
Qed.

Lemma main_iteration_out_of_session (cfg : Config) (sym : string) (w : World) :
  main_in_session (clock w) = false ->
  Main.run_trade_loop_iteration cfg sym w = (Returned tt, w) \/
  exists seconds,
    Main.run_trade_loop_iteration cfg sym w = (Returned tt, do_sleep seconds w).
Proof.
  unfold main_in_session, Main.run_trade_loop_iteration, bind, datetime_now.
  intros H. destruct (weekday (clock w) <? 5).
  - rewrite andb_true_l in H. rewrite H.
    destruct (time_ltb _ _); [right; eexists |left]; reflexivity.
  - right. eexists. reflexivity.
Qed.

Lemma next_open_out_of_session (self : Trader) (now : datetime) (w : World) :
  in_session self now = false ->
  exists d, next_open_of self now w = (Returned d, w).
Proof.
  unfold in_session, next_open_of. intros Hout.
  destruct ((weekday now <? 5) || quick_test self);
    [| eexists; reflexivity].
  destruct (time_gtb _ _ && _); [eexists; reflexivity |].
  destruct (time_ltb _ _ && _); [eexists; reflexivity | discriminate Hout].
Qed.

(** X16. The two loops agree on when to trade: with quick-test mode off,
    [run] of trader.py takes its trading branch at exactly the clock
    readings at which [run_trade_loop] of main.py calls the daily strategy
    (a trading weekday, from 09:30:00 to 16:00:00, both ends included), and
    outside of them a pass of [run_trade_loop] sends no request. *)
Theorem loops_agree_on_session (self : Trader) (cfg : Config) (sym : string)
    (w : World) :
  quick_test self = false ->
  in_session self (clock w) = main_in_session (clock w) /\
  (in_session self (clock w) = true ->
   next_open_of self (clock w) w = trade_cycle self (clock w) w /\
   Main.run_trade_loop_iteration cfg sym w
   = Main.execute_daily_trade_strategy cfg sym w) /\
  (in_session self (clock w) = false ->
   submitted (trace (snd (run_iteration self w))) = submitted (trace w) /\
   submitted (trace (snd (Main.run_trade_loop_iteration cfg sym w)))
   = submitted (trace w)).
Proof.
  intros Hq.
  assert (Hsame : in_session self (clock w) = main_in_session (clock w)).
  { unfold in_session, main_in_session. rewrite Hq.
    rewrite orb_false_r, !andb_true_r. unfold time_leb.
    rewrite (time_gtb_ltb (time_of (clock w)) (time_hm 9 30)).
    rewrite <- andb_assoc. f_equal. apply andb_comm. }
  split; [exact Hsame |]. split.
  - intros Hin. split.
    + apply next_open_in_session. exact Hin.
    + apply main_iteration_in_session. rewrite <- Hsame. exact Hin.
  - intros Hout. split.
    + rewrite run_iteration_unfold.
      destruct (next_open_out_of_session self (clock w) w Hout) as [d Hd].
      rewrite Hd. cbn [snd]. apply submitted_after_sleep.
    + rewrite Hsame in Hout.
      destruct (main_iteration_out_of_session cfg sym w Hout) as [H | [s H]];
        rewrite H; cbn [snd]; [reflexivity | apply submitted_after_sleep].
Qed.

Lemma loops_agree_on_session_witness :
  in_session (sample_trader 300) (mk_datetime 738893 16 0 0 0) = true /\
  main_in_session (mk_datetime 738893 16 0 0 0) = true /\
  in_session (sample_trader 300) (mk_datetime 738893 16 0 0 1) = false /\
  main_in_session (mk_datetime 738893 16 0 0 1) = false.
Proof.
  destruct (loops_agree_on_session (sample_trader 300) (sample_config 300)
              "VOO"
              (sample_world (mk_datetime 738893 16 0 0 0) 1000%Q [] no_bars
                 (Returned pending_order) always_pending) eq_refl)
    as [Hclose _].
  destruct (loops_agree_on_session (sample_trader 300) (sample_config 300)
              "VOO"
              (sample_world (mk_datetime 738893 16 0 0 1) 1000%Q [] no_bars
                 (Returned pending_order) always_pending) eq_refl)
    as [Hafter _].
  cbn [clock sample_world] in Hclose, Hafter.
  split; [reflexivity |]. split; [rewrite <- Hclose; reflexivity |].
  split; [reflexivity |]. rewrite <- Hafter. reflexivity.
Defined.



(** ** The ledger over a whole run *)

Lemma ledger_grows_refl (f : FileSystem) : ledger_grows f f.
Proof.
  split; [exists []; symmetry; apply app_nil_r | auto].
Qed.

Lemma ledger_grows_trans (f1 f2 f3 : FileSystem) :
  ledger_grows f1 f2 -> ledger_grows f2 f3 -> ledger_grows f1 f3.
Proof.
  intros [[a1 H1] K1] [[a2 H2] K2]. split.
  - exists (a1 ++ a2). rewrite H2, H1, app_assoc. reflexivity.
  - auto.
Qed.

Lemma fs_store_other (p q : string) (n : Node) (f : FileSystem) :
  String.eqb q p = false -> fs_lookup p (fs_store q n f) = fs_lookup p f.
Proof. intros H. rewrite fs_lookup_store, H. reflexivity. Qed.

(** One ledger update. *)
Lemma update_trade_log_grows (self : Trader) (amount : option Q)
    (trade_type : string) (side : OrderSide) (status : string) (w : World) :
  ledger_grows (fs w)
    (fs (snd (_update_trade_log self amount trade_type side status w))).
Proof.
  unfold _update_trade_log. cbn [snd fs with_fs].
  set (row := TradeRow (local_now w) (symbol self) amount trade_type side
                status).
  set (f0 := if negb (path_exists "logs" (fs w))
             then makedirs "logs" (fs w) else fs w).
  assert (H0 : fs_lookup "logs/trade_log.csv" f0
               = fs_lookup "logs/trade_log.csv" (fs w)).
  { unfold f0. destruct (negb (path_exists "logs" (fs w)));
      [apply fs_store_other |]; reflexivity. }
  unfold ledger_grows, ledger_fine, file_lines, path_exists.
  rewrite H0.
  destruct (fs_lookup "logs/trade_log.csv" (fs w)) as [[| ls] |] eqn:Hl;
    cbn [negb].
  - unfold append_file. rewrite ?H0, ?Hl. rewrite ?H0, ?Hl.
    split; [exists []; reflexivity |].
    intros [H | [rows [H _]]]; discriminate.
  - unfold append_file. rewrite ?H0, ?Hl.
    rewrite fs_lookup_store, String.eqb_refl.
    split; [exists [row]; reflexivity |].
    intros [H | [rows [H Hrows]]]; [discriminate |].
    injection H as ->. right. exists (rows ++ [row]).
    split; [reflexivity |].
    rewrite forallb_app, Hrows. reflexivity.
  - unfold append_file, write_file.
    rewrite fs_lookup_store, String.eqb_refl.
    rewrite fs_lookup_store, String.eqb_refl.
    split; [exists [Text trade_log_header; row]; reflexivity |].
    intros _. right. exists [row]. split; reflexivity.
Qed.

Lemma monitor_ledger_grows (self : Trader) (order : Order)
    (amount : option Q) (trade_type : string) (side : OrderSide) (w : World) :
  ledger_grows (fs w)
    (fs (snd (_monitor_order self order amount trade_type side w))).
Proof.
  rewrite trader_monitor_unfold. cbv zeta. cbn [snd].
  rewrite <- (wait_for_fill_fs order (max_wait self) w) at 1.
  destruct (not_filled _); cbn [fs record_event];
    apply update_trade_log_grows.
Qed.

Lemma place_order_ledger_grows (self : Trader) (qty notional : option Q)
    (side : OrderSide) (w : World) :
  ledger_grows (fs w) (fs (snd (_place_order self qty notional side w))).
Proof.
  destruct (truthy notional || truthy qty) eqn:Hany.
  - rewrite trader_place_order_unfold by exact Hany. cbv zeta.
    destruct (submit_reply w _) as [order | e].
    + apply (monitor_ledger_grows self order _ _ side
               (record_event (EvSubmitOrder _) w)).
    + apply ledger_grows_refl.
  - apply orb_false_iff in Hany as [Hn Hq].
    rewrite (trader_place_order_invalid self qty notional side w Hn Hq).
    apply ledger_grows_refl.
Qed.

Lemma act_on_decision_ledger_grows (self : Trader) (side : option OrderSide)
    (multiplier : Q) (w : World) :
  ledger_grows (fs w) (fs (snd (act_on_decision self side multiplier w))).
Proof.
  destruct side as [[|] |].
  - rewrite act_on_decision_buy_unfold, discard_value_world.
    apply place_order_ledger_grows.
  - rewrite act_on_decision_sell_unfold.
    destruct (held_positions self w) as [| p rest];
      [apply ledger_grows_refl |].
    rewrite discard_value_world. apply place_order_ledger_grows.
  - apply ledger_grows_refl.
Qed.

Lemma run_iteration_ledger_grows (self : Trader) (w : World) :
  ledger_grows (fs w) (fs (snd (run_iteration self w))).
Proof.
  rewrite run_iteration_unfold.
  destruct (next_open_of_cases self (clock w) w) as [[d Hd] | Hd]; rewrite Hd.
  - apply ledger_grows_refl.
  - destruct (trade_cycle_cases self (clock w) w)
      as [[e He] | [short [long [side [m [Hs [Hl Hdec]]]]]]].
    + rewrite He. apply ledger_grows_refl.
    + rewrite (trade_cycle_unfold self (clock w) w _ _ _ _ Hs Hl Hdec).
      pose proof (act_on_decision_ledger_grows self (Some side) m w) as H.
      destruct (act_on_decision self (Some side) m w) as [[[] | e] w1];
        exact H.
Qed.

Lemma run_ledger_grows (self : Trader) (passes : nat) (w : World) :
  ledger_grows (fs w) (fs (snd (run self passes w))).
Proof.
  revert w. induction passes as [| n IH]; intros w;
    [apply ledger_grows_refl |].
  pose proof (run_iteration_ledger_grows self w) as H1.
  cbn [run]. unfold bind.
  destruct (run_iteration self w) as [[[] | e] w1]; cbn [snd] in *.
  - eapply ledger_grows_trans; [exact H1 | apply IH].
  - exact H1.
Qed.

(** X18. The ledger is append-only over a whole run: after any number of
    passes of [run], however they end, the ledger file holds the lines it
    held before, in the same order, followed by what was added; no line is
    ever changed or removed. *)
Theorem ledger_is_append_only (self : Trader) (passes : nat) (w : World) :
  exists added, ledger (snd (run self passes w)) = ledger w ++ added.
Proof.
  destruct (run_ledger_grows self passes w) as [[added Hadded] _].
  exists added. unfold ledger. exact Hadded.
Qed.

(** X19. A ledger file that is not there yet, or that is the header line
    followed by trade rows, is still one of the two after any number of
    passes of [run]: the header is never written a second time and nothing
    but trade rows follows it. *)
Theorem ledger_keeps_its_shape (self : Trader) (passes : nat) (w : World) :
  ledger_fine (fs w) -> ledger_fine (fs (snd (run self passes w))).
Proof.
  intros Hfine.
  destruct (run_ledger_grows self passes w) as [_ Hkeeps].
  apply Hkeeps. exact Hfine.
Qed.

Lemma ledger_keeps_its_shape_witness :
  ledger_fine
    (fs (snd (run (sample_trader 120) 2
                (sample_world monday_10h 1000%Q [] rising_bars
                   (Returned pending_order) always_pending)))).
Proof.
  apply ledger_keeps_its_shape. left. reflexivity.
Defined.

(** ** Account validation and start-up *)

Lemma Qltb_false_iff (x y : Q) : Qltb x y = false <-> (y <= x)%Q.
Proof.
  unfold Qltb. destruct (x ?= y)%Q eqn:Hc.
  - apply Qeq_alt in Hc. split; [intros _ | reflexivity].
    rewrite Hc. apply Qle_refl.
  - apply Qlt_alt in Hc. split; [discriminate |].
    intros H. exfalso. exact (Qle_not_lt _ _ H Hc).
  - apply Qgt_alt in Hc. split; [intros _ | reflexivity].
    apply Qlt_le_weak. exact Hc.
Qed.

Lemma trader_validate_true_iff (account : Account)
    (configurations : AccountConfigurations) :
  fst (_validate_account account configurations) = true <->
  acct_status account = "ACTIVE" /\
  fractional_trading configurations = true /\
  (0 <= acct_cash account)%Q.
Proof.
  unfold _validate_account. rewrite <- Qltb_false_iff.
  rewrite <- String.eqb_eq.
  destruct (String.eqb (acct_status account) "ACTIVE"),
    (fractional_trading configurations), (Qltb (acct_cash account) 0);
    cbn; intuition discriminate.
Qed.

Lemma main_validate_true_iff (MIN_CASH : Q) (account : Account)
    (configurations : AccountConfigurations) :
  fst (MainStartup.validate_account MIN_CASH account configurations) = true <->
  acct_status account = "ACTIVE" /\
  fractional_trading configurations = true /\
  (MIN_CASH <= acct_cash account)%Q.
Proof.
  unfold MainStartup.validate_account. rewrite <- Qltb_false_iff.
  rewrite <- String.eqb_eq.
  destruct (String.eqb (acct_status account) "ACTIVE"),
    (fractional_trading configurations), (Qltb (acct_cash account) MIN_CASH);
    cbn; intuition discriminate.
Qed.

(** X20. Validation succeeds exactly when the account is ACTIVE,
    fractional trading is enabled and the cash is not negative (trader.py),
    respectively not below [MIN_CASH] (main.py); and it returns no error
    message exactly when it succeeds. *)
Theorem account_validation_criterion (MIN_CASH : Q) (account : Account)
    (configurations : AccountConfigurations) :
  (fst (_validate_account account configurations) = true <->
   acct_status account = "ACTIVE" /\
   fractional_trading configurations = true /\
   (0 <= acct_cash account)%Q) /\
  (snd (_validate_account account configurations) = None <->
   fst (_validate_account account configurations) = true) /\
  (fst (MainStartup.validate_account MIN_CASH account configurations) = true
   <->
   acct_status account = "ACTIVE" /\
   fractional_trading configurations = true /\
   (MIN_CASH <= acct_cash account)%Q) /\
  (snd (MainStartup.validate_account MIN_CASH account configurations) = None
   <->
   fst (MainStartup.validate_account MIN_CASH account configurations) = true).
Proof.
  split; [apply trader_validate_true_iff |].
  split; [| split; [apply main_validate_true_iff |]].
  - unfold _validate_account.
    destruct (negb (String.eqb (acct_status account) "ACTIVE")),
      (negb (fractional_trading configurations)),
      (Qltb (acct_cash account) 0); cbn; intuition discriminate.
  - unfold MainStartup.validate_account.
    destruct (negb (String.eqb (acct_status account) "ACTIVE")),
      (negb (fractional_trading configurations)),
      (Qltb (acct_cash account) MIN_CASH); cbn; intuition discriminate.
Qed.

(** X21. A failed validation reports every failed check, not only the
    first: the message is built from a list of errors that holds the
    not-active text exactly when the account is not ACTIVE, the
    fractional-trading text exactly when fractional trading is off, and the
    negative-balance text exactly when the cash is negative. *)
Theorem validation_reports_every_failure (account : Account)
    (configurations : AccountConfigurations) :
  fst (_validate_account account configurations) = false ->
  exists errors,
    snd (_validate_account account configurations)
      = Some (error_message_of errors) /\
    (In not_active_error errors <-> acct_status account <> "ACTIVE") /\
    (In no_fractional_error errors <->
     fractional_trading configurations = false) /\
    (In negative_balance_error errors <-> (acct_cash account < 0)%Q).
Proof.
  unfold _validate_account.
  assert (Hcash : Qltb (acct_cash account) 0 = true <->
                  (acct_cash account < 0)%Q).
  { unfold Qltb. destruct (acct_cash account ?= 0)%Q eqn:Hc.
    - apply Qeq_alt in Hc. split; [discriminate |].
      intros H. rewrite Hc in H. exfalso. exact (Qlt_irrefl _ H).
    - apply Qlt_alt in Hc. split; [intros _; exact Hc | reflexivity].
    - apply Qgt_alt in Hc. split; [discriminate |].
      intros H. exfalso. exact (Qlt_irrefl _ (Qlt_trans _ _ _ H Hc)). }
  destruct (String.eqb_spec (acct_status account) "ACTIVE") as [Hs | Hs];
    destruct (fractional_trading configurations);
    destruct (Qltb (acct_cash account) 0);
    cbn [negb app fst snd]; intros Hfail; try discriminate Hfail;
    eexists; (split; [reflexivity |]);
    unfold not_active_error, no_fractional_error, negative_balance_error;
    simpl; intuition (try discriminate; try congruence).
Qed.

Lemma validation_reports_every_failure_witness :
  exists errors,
    snd (_validate_account (mk_account "INACTIVE" (-5)%Q)
           (mk_configurations false))
      = Some (error_message_of errors) /\
    In not_active_error errors /\
    In no_fractional_error errors /\
    In negative_balance_error errors.
Proof.
  destruct (validation_reports_every_failure (mk_account "INACTIVE" (-5)%Q)
              (mk_configurations false) eq_refl)
    as [errors [Hmsg [H1 [H2 H3]]]].
  exists errors. split; [exact Hmsg |]. split; [| split].
  - apply H1. discriminate.
  - apply H2. reflexivity.
  - apply H3. reflexivity.
Defined.

(** X22. The check of main.py is the stricter one whenever [MIN_CASH] is
    not negative: an account that passes [validate_account] of main.py also
    passes [_validate_account] of trader.py. *)
Theorem main_validation_implies_trader_validation (MIN_CASH : Q)
    (account : Account) (configurations : AccountConfigurations) :
  (0 <= MIN_CASH)%Q ->
  fst (MainStartup.validate_account MIN_CASH account configurations) = true ->
  fst (_validate_account account configurations) = true.
Proof.
  intros Hmin Hmain.
  apply main_validate_true_iff in Hmain as [Hs [Hf Hc]].
  apply trader_validate_true_iff. repeat split; try assumption.
  exact (Qle_trans _ _ _ Hmin Hc).
Qed.

Lemma main_validation_implies_trader_validation_witness :
  fst (_validate_account (mk_account "ACTIVE" 500%Q) (mk_configurations true))
  = true.
Proof.
  apply (main_validation_implies_trader_validation 100%Q).
  - discriminate.
  - reflexivity.
Defined.

(** X23. The constructor of [Trader] validates the account its client
    trades on and raises [RuntimeError] with the validation message exactly
    when that account fails; in quick-test mode the client is always the
    paper one, whatever [paper] argument was given, so the live account is
    neither validated nor traded on. *)
Theorem constructor_validates_the_traded_account
    (brokerage : bool -> Account * AccountConfigurations) (sym : string)
    (paper : bool) (wait : Z) (quick : bool) :
  let traded := if quick then true else paper in
  (fst (_validate_account (fst (brokerage traded)) (snd (brokerage traded)))
     = true ->
   Trader_init brokerage sym paper wait quick
     = Ready (mk_trader sym wait quick, traded)) /\
  (fst (_validate_account (fst (brokerage traded)) (snd (brokerage traded)))
     = false ->
   Trader_init brokerage sym paper wait quick
     = RuntimeError
         (snd (_validate_account (fst (brokerage traded))
                 (snd (brokerage traded))))) /\
  Trader_init brokerage sym paper wait true
    = Trader_init brokerage sym true wait true.
Proof.
  cbv zeta. unfold Trader_init, _get_trading_client.
  split; [| split; [| reflexivity]];
    destruct quick; cbn [negb];
    match goal with
    | |- context [brokerage ?p] => destruct (brokerage p) as [a c]
    end;
    cbn [fst snd];
    destruct (_validate_account a c) as [[|] msg]; cbn;
    intros H; try discriminate H; reflexivity.
Qed.

Lemma constructor_validates_the_traded_account_witness :
  Trader_init
    (fun paper =>
       if paper then active_account 1000%Q
       else (mk_account "INACTIVE" 0%Q, mk_configurations true))
    "VOO" false 300 true
  = Ready (mk_trader "VOO" 300 true, true).
Proof.
  destruct (constructor_validates_the_traded_account
              (fun paper =>
                 if paper then active_account 1000%Q
                 else (mk_account "INACTIVE" 0%Q, mk_configurations true))
              "VOO" false 300 true) as [Hok _].
  apply Hok. reflexivity.
Defined.

(** X24. [main] of main.py enters the loop exactly when the account passes
    validation; when it does not, [main] raises [RuntimeError] with the
    validation message before the loop starts: no order is sent, nothing is
    written and nothing is slept, however long the run is observed. *)
Theorem main_starts_only_on_a_valid_account (cfg : Config) (MIN_CASH : Q)
    (PAPER : bool) (brokerage : bool -> Account * AccountConfigurations)
    (passes : nat) (w : World) :
  (fst (MainStartup.validate_account MIN_CASH (fst (brokerage PAPER))
          (snd (brokerage PAPER))) = false ->
   MainStartup.main cfg MIN_CASH PAPER brokerage passes w
   = (RuntimeError
        (snd (MainStartup.validate_account MIN_CASH (fst (brokerage PAPER))
                (snd (brokerage PAPER)))), w)) /\
  (fst (MainStartup.validate_account MIN_CASH (fst (brokerage PAPER))
          (snd (brokerage PAPER))) = true ->
   MainStartup.main cfg MIN_CASH PAPER brokerage passes w
   = (Ready (fst (Main.run_trade_loop cfg (SYMBOL cfg) passes w)),
      snd (Main.run_trade_loop cfg (SYMBOL cfg) passes w))) /\
  ((exists error w',
      MainStartup.main cfg MIN_CASH PAPER brokerage passes w
      = (RuntimeError error, w')) <->
   ~ (acct_status (fst (brokerage PAPER)) = "ACTIVE" /\
      fractional_trading (snd (brokerage PAPER)) = true /\
      (MIN_CASH <= acct_cash (fst (brokerage PAPER)))%Q)).
Proof.
  rewrite <- main_validate_true_iff.
  unfold MainStartup.main, MainStartup.get_trading_client.
  destruct (brokerage PAPER) as [a c]. cbn [fst snd].
  destruct (MainStartup.validate_account MIN_CASH a c) as [[|] msg];
    cbn [fst snd negb].
  - destruct (Main.run_trade_loop cfg (SYMBOL cfg) passes w) as [r w'].
    split; [discriminate |]. split; [reflexivity |].
    split; [intros [e [w'' H]]; discriminate | intros H; congruence].
  - split; [reflexivity |]. split; [discriminate |].
    split; [intros _; discriminate | intros _; eexists _, _; reflexivity].
Qed.

Lemma main_starts_only_on_a_valid_account_witness :
  MainStartup.main (sample_config 300) 100%Q true
    (fun _ => active_account 50%Q) 5
    (sample_world monday_10h 50%Q [] no_bars (Returned pending_order)
       always_pending)
  = (RuntimeError (Some ("- " ++ insufficient_cash_error)%string),
     sample_world monday_10h 50%Q [] no_bars (Returned pending_order)
       always_pending).
Proof.
  destruct (main_starts_only_on_a_valid_account (sample_config 300) 100%Q true
              (fun _ => active_account 50%Q) 5
              (sample_world monday_10h 50%Q [] no_bars
                 (Returned pending_order) always_pending)) as [Hbad _].
  apply Hbad. reflexivity.
Defined.

(** ** The daily strategy of main.py *)

Lemma main_place_order_trace (cfg : Config) (sym : string)
    (qty notional : option Q) (side : OrderSide) (w : World) :
  exists added,
    trace (snd (Main.place_order cfg sym qty notional side w))
    = trace w ++ added.
Proof.
  destruct (truthy notional || truthy qty) eqn:Hany.
  - rewrite main_place_order_unfold by exact Hany. cbv zeta.
    destruct (submit_reply w _) as [order | e].
    + destruct (main_monitor_shape cfg order sym (py_or qty notional)
                  (if truthy notional then "NOTIONAL" else "FRACTIONAL") side
                  (record_event
                     (EvSubmitOrder (request_for sym qty notional side)) w))
        as [k [handle [w' [Hrun [Ht _]]]]].
      rewrite Hrun. cbn [snd]. rewrite Ht. cbn [trace record_event].
      rewrite <- app_assoc. eexists. reflexivity.
    + cbn. eexists. reflexivity.
  - apply orb_false_iff in Hany as [Hn Hq].
    rewrite (main_place_order_invalid cfg sym qty notional side w Hn Hq).
    exists []. cbn. symmetry. apply app_nil_r.
Qed.

Lemma main_place_order_sends_at_most_one (cfg : Config) (sym : string)
    (qty notional : option Q) (side : OrderSide) (w : World) :
  exists l,
    submitted (trace (snd (Main.place_order cfg sym qty notional side w)))
    = submitted (trace w) ++ l /\ (List.length l <= 1)%nat.
Proof.
  destruct (truthy notional || truthy qty) eqn:Hany.
  - exists [request_for sym qty notional side].
    split; [apply main_place_order_submitted; exact Hany | simpl; lia].
  - apply orb_false_iff in Hany as [Hn Hq].
    rewrite (main_place_order_invalid cfg sym qty notional side w Hn Hq).
    exists []. cbn [snd]. rewrite app_nil_r. split; [reflexivity | simpl; lia].
Qed.

Lemma main_strategy_unfold (cfg : Config) (sym : string) (w : World) :
  Main.execute_daily_trade_strategy cfg sym w =
  let w0 := record_event EvCancelOrders w in
  if random_choice w then
    (Main.place_order cfg sym None (Some (account_cash w * 0.4)%Q) BUY ;;;
     ret tt) w0
  else
    match position_reply w sym with
    | Returned (Some pos) =>
        (Main.place_order cfg sym (Some (pos_qty pos * 0.3)%Q) None SELL ;;;
         ret tt) w0
    | Returned None => (Returned tt, w0)
    | Raised e => (Raised e, w0)
    end.
Proof.
  unfold Main.execute_daily_trade_strategy.
  unfold bind at 1. cbn [cancel_orders]. unfold bind at 1.
  cbn [random_choice record_event].
  destruct (random_choice w); [reflexivity |].
  unfold bind at 1, get_position. cbn [position_reply record_event].
  destruct (position_reply w sym) as [[p |] | e]; reflexivity.
Qed.

(** X25. Every call of the daily strategy of main.py first cancels all
    open orders, whatever follows, and then sends at most one new request,
    also when the position lookup or the submission raises. *)
Theorem daily_strategy_cancels_first (cfg : Config) (sym : string)
    (w : World) :
  exists after,
    trace (snd (Main.execute_daily_trade_strategy cfg sym w))
    = trace w ++ EvCancelOrders :: after /\
    (List.length (submitted after) <= 1)%nat.
Proof.
  assert (Hplaced : forall qty notional side,
    exists after,
      trace (snd ((Main.place_order cfg sym qty notional side ;;; ret tt)
                    (record_event EvCancelOrders w)))
      = trace w ++ EvCancelOrders :: after /\
      (List.length (submitted after) <= 1)%nat).
  { intros qty notional side. rewrite discard_value_world.
    destruct (main_place_order_trace cfg sym qty notional side
                (record_event EvCancelOrders w)) as [added Ht].
    destruct (main_place_order_sends_at_most_one cfg sym qty notional side
                (record_event EvCancelOrders w)) as [l [Hl Hlen]].
    exists added. rewrite Ht. cbn [trace record_event].
    rewrite <- app_assoc. split; [reflexivity |].
    rewrite Ht, submitted_app in Hl. apply app_inv_head in Hl.
    rewrite Hl. exact Hlen. }
  rewrite main_strategy_unfold. cbv zeta.
  destruct (random_choice w); [apply Hplaced |].
  destruct (position_reply w sym) as [[p |] | e]; [apply Hplaced | |];
    exists []; (split; [reflexivity | simpl; lia]).
Qed.
